(** * Sensirion SHT3x driver (sht3x.c / sht3x.h): shallow embedding and
      verification of its protocol and fixed-point layer.

    The driver is embedded as state-passing functions over a record holding
    the file-scope variable [sht3x_cmd_measure], the platform (bus) state,
    the caller's memory reached through the output pointers, and the log of
    calls the driver made to the platform.  C integers are [Z] with the
    conversions to the fixed-width types written out. *)

From Stdlib Require Import ZArith List Lia Bool.
From Stdlib Require Strings.String.
From stdpp Require Import base gmap.
Import ListNotations.
Local Open Scope Z_scope.

(** ** Fixed-width integers *)

Module CInt.

(** Conversion to an unsigned type of [w] bits: reduction modulo [2^w]. *)
Definition to_unsigned (w x : Z) : Z := x mod 2 ^ w.

(** Conversion to a signed type of [w] bits (two's complement). *)
Definition to_signed (w x : Z) : Z := (x + 2 ^ (w - 1)) mod 2 ^ w - 2 ^ (w - 1).

Definition to_uint8 : Z -> Z := to_unsigned 8.
Definition to_uint16 : Z -> Z := to_unsigned 16.
Definition to_uint32 : Z -> Z := to_unsigned 32.
Definition to_int16 : Z -> Z := to_signed 16.
Definition to_int32 : Z -> Z := to_signed 32.

Definition is_uint8 (x : Z) : Prop := 0 <= x < 2 ^ 8.
Definition is_uint16 (x : Z) : Prop := 0 <= x < 2 ^ 16.
Definition is_int16 (x : Z) : Prop := - 2 ^ 15 <= x < 2 ^ 15.
Definition is_int32 (x : Z) : Prop := - 2 ^ 31 <= x < 2 ^ 31.

End CInt.
Import CInt.

(** ** Constants of sht3x.h *)

Definition STATUS_OK : Z := 0.
Definition STATUS_ERR_BAD_DATA : Z := -1.
Definition STATUS_CRC_FAIL : Z := -2.
Definition STATUS_UNKNOWN_DEVICE : Z := -3.
Definition STATUS_ERR_INVALID_PARAMS : Z := -4.
Definition SHT3X_MEASUREMENT_DURATION_USEC : Z := 15000.

(** enum _sht3x_i2c_addr *)
Definition SHT3X_I2C_ADDR_DFLT : Z := 0x44.
Definition SHT3X_I2C_ADDR_ALT : Z := 0x45.

(** enum _sht3x_measurement_mode: enumerators number from 0. *)
Definition SHT3X_MEAS_MODE_LPM : Z := 0.
Definition SHT3X_MEAS_MODE_MPM : Z := 1.
Definition SHT3X_MEAS_MODE_HPM : Z := 2.

(** enum _sht3x_alert_thd *)
Definition SHT3X_HIALRT_SET : Z := 0.
Definition SHT3X_HIALRT_CLR : Z := 1.
Definition SHT3X_LOALRT_CLR : Z := 2.
Definition SHT3X_LOALRT_SET : Z := 3.

(** Status word macros: [(bool)(((status) & mask) != 0U)]. *)
Definition SHT3X_IS_ALRT_PENDING (status : Z) : bool := negb (Z.land status 0x8000 =? 0).
Definition SHT3X_IS_ALRT_RH_TRACK (status : Z) : bool := negb (Z.land status 0x0800 =? 0).
Definition SHT3X_IS_ALRT_T_TRACK (status : Z) : bool := negb (Z.land status 0x0400 =? 0).
Definition SHT3X_IS_SYSTEM_RST_DETECT (status : Z) : bool := negb (Z.land status 0x0010 =? 0).
Definition SHT3X_IS_LAST_CRC_FAIL (status : Z) : bool := negb (Z.land status 0x0001 =? 0).

(** ** Constants of sht3x.c *)

Definition SHT3X_HUMIDITY_LIMIT_MSK : Z := 0xFE00.
Definition SHT3X_TEMPERATURE_LIMIT_MSK : Z := 0x01FF.

Definition SHT3X_CMD_READ_STATUS_REG : Z := 0xF32D.
Definition SHT3X_CMD_CLR_STATUS_REG : Z := 0x3041.
Definition SHT3X_CMD_READ_SERIAL_ID : Z := 0x3780.
Definition SHT3X_CMD_DURATION_USEC : Z := 1000.
Definition SHT3X_CMD_READ_HIALRT_LIM_SET : Z := 0xE11F.
Definition SHT3X_CMD_READ_HIALRT_LIM_CLR : Z := 0xE114.
Definition SHT3X_CMD_READ_LOALRT_LIM_CLR : Z := 0xE109.
Definition SHT3X_CMD_READ_LOALRT_LIM_SET : Z := 0xE102.
Definition SHT3X_CMD_WRITE_HIALRT_LIM_SET : Z := 0x611D.
Definition SHT3X_CMD_WRITE_HIALRT_LIM_CLR : Z := 0x6116.
Definition SHT3X_CMD_WRITE_LOALRT_LIM_CLR : Z := 0x610B.
Definition SHT3X_CMD_WRITE_LOALRT_LIM_SET : Z := 0x6100.

(** The measurement commands depend on the build flag
    USE_SENSIRION_CLOCK_STRETCHING of sensirion_arch_config.h, which is not
    part of the driver sources and is therefore a parameter. *)
Definition SHT3X_CMD_MEASURE_HPM (clock_stretching : bool) : Z :=
  if clock_stretching then 0x2C06 else 0x2400.
Definition SHT3X_CMD_MEASURE_MPM (clock_stretching : bool) : Z :=
  if clock_stretching then 0x2C0D else 0x240B.
Definition SHT3X_CMD_MEASURE_LPM (clock_stretching : bool) : Z :=
  if clock_stretching then 0x2C10 else 0x2416.

(** ** Fixed-point arithmetic of the driver *)

(** sht3x_read, line 103:
    [((21875 * (int32_t)words[0]) >> 13) - 45000], every step in int32_t. *)
Definition temperature_of_word (w : Z) : Z :=
  to_int32 (Z.shiftr (to_int32 (21875 * to_int32 w)) 13 - 45000).

(** sht3x_read, line 104: [((12500 * (int32_t)words[1]) >> 13)]. *)
Definition humidity_of_word (w : Z) : Z :=
  Z.shiftr (to_int32 (12500 * to_int32 w)) 13.

(** sht3x_set_alert_thd, lines 183-191: the limit word built from the two
    arguments.  [humidity] is a uint16_t promoted to int for the shift and the
    subtraction; the result is converted to the uint32_t [tmp].  (For
    [humidity >= 32768] the int shift overflows, which C leaves undefined; it
    is two's complement wrap-around here.)  [temperature] is an int16_t. *)
Definition alert_thd_limit_val (humidity temperature : Z) : Z :=
  let humidity := to_uint16 humidity in
  let temperature := to_int16 temperature in
  let limitVal := 0 in
  let tmp := to_uint32 (to_int32 (to_int32 (Z.shiftl humidity 16) - humidity)) in
  let tmp := tmp / 1000 in
  let limitVal := Z.land (to_uint16 tmp) SHT3X_HUMIDITY_LIMIT_MSK in
  let tmp := to_uint32 (temperature + 450) in
  let tmp := to_uint32 (to_uint32 (Z.shiftl tmp 16) - tmp) in
  let tmp := tmp / 1750 in
  let tmp := Z.shiftr tmp 7 in
  Z.lor limitVal (Z.land (to_uint16 tmp) SHT3X_TEMPERATURE_LIMIT_MSK).

(** sht3x_get_alert_thd, lines 255-257: the value stored to [*humidity]
    (a uint16_t); [tmp] is an int32_t and [/] is C's truncating division. *)
Definition alert_thd_humidity (word : Z) : Z :=
  let tmp := to_int32 (Z.land word SHT3X_HUMIDITY_LIMIT_MSK) in
  let tmp := Z.quot (to_int32 (1000 * tmp)) 65535 in
  to_uint16 tmp.

(** sht3x_get_alert_thd, lines 259-263: the value stored to [*temperature]
    (an int16_t). *)
Definition alert_thd_temperature (word : Z) : Z :=
  let tmp := to_int32 (Z.land word SHT3X_TEMPERATURE_LIMIT_MSK) in
  let tmp := to_int32 (Z.shiftl tmp 7) in
  let tmp := Z.quot (to_int32 (tmp * 1750)) 65535 in
  let tmp := to_int32 (tmp - 450) in
  to_int16 tmp.

(** ** The platform: bus transport, delay and helper functions

    sensirion_i2c.h, sensirion_common.h, sensirion_arch_config.h and
    sht_git_version.h are not part of the driver sources; what the driver
    takes from them are the fields of a [platform] over an arbitrary platform
    state [B].  A read function returns its status and the words (or bytes)
    it stored at the start of the caller's buffer; cells it did not store
    keep their previous content. *)

Record platform (B : Type) : Type := {
  (** [sensirion_i2c_write_cmd(addr, command)] *)
  bus_write_cmd : Z -> Z -> B -> Z * B;
  (** [sensirion_i2c_write_cmd_with_args(addr, command, args, num_args)] *)
  bus_write_cmd_with_args : Z -> Z -> list Z -> B -> Z * B;
  (** [sensirion_i2c_read_words(addr, data, num_words)] *)
  bus_read_words : Z -> Z -> B -> (Z * list Z) * B;
  (** [sensirion_i2c_read_words_as_bytes(addr, data, num_words)] *)
  bus_read_words_as_bytes : Z -> Z -> B -> (Z * list Z) * B;
  (** [sensirion_i2c_read_cmd(addr, cmd, data, num_words)] *)
  bus_read_cmd : Z -> Z -> Z -> B -> (Z * list Z) * B;
  (** [sensirion_i2c_delayed_read_cmd(addr, cmd, delay_us, data, num_words)] *)
  bus_delayed_read_cmd : Z -> Z -> Z -> Z -> B -> (Z * list Z) * B;
  (** [sensirion_sleep_usec(useconds)] *)
  bus_sleep_usec : Z -> B -> B;
  (** [sensirion_bytes_to_uint32_t(bytes)] *)
  bytes_to_uint32_t : list Z -> Z;
  (** The indeterminate content of the [i]-th cell of an automatic variable
      that the driver declares without initialising it. *)
  indeterminate : nat -> B -> Z;
  (** The string literal SHT_DRV_VERSION_STR of sht_git_version.h. *)
  SHT_DRV_VERSION_STR : String.string
}.

Arguments bus_write_cmd {B} _ _ _ _.
Arguments bus_write_cmd_with_args {B} _ _ _ _ _.
Arguments bus_read_words {B} _ _ _ _.
Arguments bus_read_words_as_bytes {B} _ _ _ _.
Arguments bus_read_cmd {B} _ _ _ _ _.
Arguments bus_delayed_read_cmd {B} _ _ _ _ _ _.
Arguments bus_sleep_usec {B} _ _ _.
Arguments bytes_to_uint32_t {B} _ _.
Arguments indeterminate {B} _ _ _.
Arguments SHT_DRV_VERSION_STR {B} _.

(** What the driver asked of the platform, in order. *)
Inductive event : Type :=
| EvWriteCmd (addr command : Z)
| EvWriteCmdWithArgs (addr command : Z) (args : list Z)
| EvReadWords (addr num_words : Z)
| EvReadWordsAsBytes (addr num_words : Z)
| EvReadCmd (addr cmd num_words : Z)
| EvDelayedReadCmd (addr cmd delay_us num_words : Z)
| EvSleepUsec (useconds : Z).

(** Pointers are addresses into the caller's memory. *)
Definition ptr : Type := Z.

Record state (B : Type) : Type := mkState {
  (** [static uint16_t sht3x_cmd_measure] *)
  sht3x_cmd_measure : Z;
  bus : B;
  mem : gmap Z Z;
  trace : list event
}.

Arguments mkState {B} _ _ _ _.
Arguments sht3x_cmd_measure {B} _.
Arguments bus {B} _.
Arguments mem {B} _.
Arguments trace {B} _.

(** ** The state monad of the driver *)

Definition M (B A : Type) : Type := state B -> A * state B.

Definition ret {B A : Type} (a : A) : M B A := fun s => (a, s).

Definition bind {B A C : Type} (m : M B A) (k : A -> M B C) : M B C :=
  fun s => let (a, s') := m s in k a s'.

Declare Scope drv_scope.
Delimit Scope drv_scope with drv.
Notation "x <- m ;; k" := (bind m (fun x => k))
  (at level 100, m at next level, right associativity) : drv_scope.
Notation "m ;;; k" := (bind m (fun _ => k))
  (at level 100, right associativity) : drv_scope.

(** The content of a buffer after the platform stored [data] at its start. *)
Definition fill (data buf : list Z) : list Z :=
  firstn (length buf) data ++ skipn (length data) buf.

(** Modelled from the spec: the macro SENSIRION_NUM_WORDS of
    sensirion_common.h is not among the sources.  The specification has
    [sht3x_read] read two 16-bit words into its 4-byte buffer and
    [sht3x_read_serial] read "4 bytes (two words)": the macro is the size of
    its argument in bytes divided by the size of a word, 2. *)
Definition SENSIRION_WORD_SIZE : Z := 2.
Definition SENSIRION_NUM_WORDS (size_of : Z) : Z := size_of / SENSIRION_WORD_SIZE.

(** ** The driver (sht3x.c) *)

Section Driver.

Context {B : Type}.
(** The platform the driver is linked against. *)
Variable P : platform B.
(** The build flag USE_SENSIRION_CLOCK_STRETCHING. *)
Variable USE_SENSIRION_CLOCK_STRETCHING : bool.

Local Open Scope drv_scope.

(** *** Calls to the platform, logged in [trace] *)

Definition log (e : event) (b : B) (s : state B) : state B :=
  mkState (sht3x_cmd_measure s) b (mem s) (trace s ++ [e]).

Definition sensirion_i2c_write_cmd (addr command : Z) : M B Z :=
  fun s => let (r, b) := bus_write_cmd P addr command (bus s) in
           (r, log (EvWriteCmd addr command) b s).

Definition sensirion_i2c_write_cmd_with_args (addr command : Z) (args : list Z)
  : M B Z :=
  fun s => let (r, b) := bus_write_cmd_with_args P addr command args (bus s) in
           (r, log (EvWriteCmdWithArgs addr command args) b s).

Definition sensirion_i2c_read_words (addr num_words : Z) : M B (Z * list Z) :=
  fun s => let (r, b) := bus_read_words P addr num_words (bus s) in
           (r, log (EvReadWords addr num_words) b s).

Definition sensirion_i2c_read_words_as_bytes (addr num_words : Z)
  : M B (Z * list Z) :=
  fun s => let (r, b) := bus_read_words_as_bytes P addr num_words (bus s) in
           (r, log (EvReadWordsAsBytes addr num_words) b s).

Definition sensirion_i2c_read_cmd (addr cmd num_words : Z) : M B (Z * list Z) :=
  fun s => let (r, b) := bus_read_cmd P addr cmd num_words (bus s) in
           (r, log (EvReadCmd addr cmd num_words) b s).

Definition sensirion_i2c_delayed_read_cmd (addr cmd delay_us num_words : Z)
  : M B (Z * list Z) :=
  fun s => let (r, b) := bus_delayed_read_cmd P addr cmd delay_us num_words (bus s) in
           (r, log (EvDelayedReadCmd addr cmd delay_us num_words) b s).

Definition sensirion_sleep_usec (useconds : Z) : M B unit :=
  fun s => (tt, log (EvSleepUsec useconds) (bus_sleep_usec P useconds (bus s)) s).

(** *** Memory and variables *)

(** [*p = v] *)
Definition store (p : ptr) (v : Z) : M B unit :=
  fun s => (tt, mkState (sht3x_cmd_measure s) (bus s) (<[p := v]> (mem s)) (trace s)).

(** The words the platform stored through [p], one cell per word. *)
Fixpoint store_words (p : ptr) (data : list Z) : M B unit :=
  match data with
  | [] => ret tt
  | w :: data' => store p (to_uint16 w) ;;; store_words (p + 1) data'
  end.

(** [sht3x_cmd_measure = v] *)
Definition set_cmd_measure (v : Z) : M B unit :=
  fun s => (tt, mkState (to_uint16 v) (bus s) (mem s) (trace s)).

Definition get_cmd_measure : M B Z := fun s => (sht3x_cmd_measure s, s).

(** An automatic array of [n] cells declared without initialiser. *)
Definition uninitialized (n : nat) : M B (list Z) :=
  fun s => (map (fun i => indeterminate P i (bus s)) (seq 0 n), s).

(** [buf[i]] for a [uint16_t] array. *)
Definition word_at (i : nat) (buf : list Z) : Z := to_uint16 (nth i buf 0).

(** *** The functions of sht3x.c, in the order of the file *)

(** [return sensirion_i2c_write_cmd(addr, sht3x_cmd_measure);] *)
Definition sht3x_measure (addr : Z) : M B Z :=
  cmd <- get_cmd_measure ;;
  sensirion_i2c_write_cmd addr cmd.

(** [uint16_t words[2]] has no initialiser and [sizeof(words)] is 4; the two
    assignments through the output pointers are not guarded by [ret]. *)
Definition sht3x_read (addr : Z) (temperature humidity : ptr) : M B Z :=
  words <- uninitialized 2 ;;
  r <- sensirion_i2c_read_words addr (SENSIRION_NUM_WORDS 4) ;;
  let ret_ := fst r in
  let words := fill (snd r) words in
  store temperature (temperature_of_word (word_at 0 words)) ;;;
  store humidity (humidity_of_word (word_at 1 words)) ;;;
  ret ret_.

(** The sleep is compiled in unless USE_SENSIRION_CLOCK_STRETCHING is set. *)
Definition sht3x_measure_blocking_read (addr : Z) (temperature humidity : ptr)
  : M B Z :=
  ret_ <- sht3x_measure addr ;;
  if ret_ =? STATUS_OK then
    (if USE_SENSIRION_CLOCK_STRETCHING then ret tt
     else sensirion_sleep_usec SHT3X_MEASUREMENT_DURATION_USEC) ;;;
    sht3x_read addr temperature humidity
  else ret ret_.

(** The status word goes to a local variable that is not used. *)
Definition sht3x_probe (addr : Z) : M B Z :=
  r <- sensirion_i2c_delayed_read_cmd addr SHT3X_CMD_READ_STATUS_REG
         SHT3X_CMD_DURATION_USEC 1 ;;
  ret (fst r).

Definition sht3x_get_status (addr : Z) (status : ptr) : M B Z :=
  r <- sensirion_i2c_delayed_read_cmd addr SHT3X_CMD_READ_STATUS_REG
         SHT3X_CMD_DURATION_USEC 1 ;;
  store_words status (firstn 1 (snd r)) ;;;
  ret (fst r).

Definition sht3x_clear_status (addr : Z) : M B Z :=
  sensirion_i2c_write_cmd addr SHT3X_CMD_CLR_STATUS_REG.

(** The argument is a uint8_t; [e ? LPM : HPM] tests it against 0. *)
Definition sht3x_enable_low_power_mode (enable_low_power_mode : Z) : M B unit :=
  set_cmd_measure
    (if to_uint8 enable_low_power_mode =? 0
     then SHT3X_CMD_MEASURE_HPM USE_SENSIRION_CLOCK_STRETCHING
     else SHT3X_CMD_MEASURE_LPM USE_SENSIRION_CLOCK_STRETCHING).

(** The [switch] on the enumerators, the last branch being [default]. *)
Definition sht3x_set_power_mode (mode : Z) : M B unit :=
  if mode =? SHT3X_MEAS_MODE_LPM then
    set_cmd_measure (SHT3X_CMD_MEASURE_LPM USE_SENSIRION_CLOCK_STRETCHING)
  else if mode =? SHT3X_MEAS_MODE_MPM then
    set_cmd_measure (SHT3X_CMD_MEASURE_MPM USE_SENSIRION_CLOCK_STRETCHING)
  else if mode =? SHT3X_MEAS_MODE_HPM then
    set_cmd_measure (SHT3X_CMD_MEASURE_HPM USE_SENSIRION_CLOCK_STRETCHING)
  else
    set_cmd_measure (SHT3X_CMD_MEASURE_HPM USE_SENSIRION_CLOCK_STRETCHING).

(** [uint8_t serial_bytes[4]] has no initialiser and its size is 4. The
    sleep comes before the test of [ret]; the read and the assignment to
    [*serial] come after it. *)
Definition sht3x_read_serial (addr : Z) (serial : ptr) : M B Z :=
  serial_bytes <- uninitialized 4 ;;
  ret_ <- sensirion_i2c_write_cmd addr SHT3X_CMD_READ_SERIAL_ID ;;
  sensirion_sleep_usec SHT3X_CMD_DURATION_USEC ;;;
  if ret_ =? STATUS_OK then
    r <- sensirion_i2c_read_words_as_bytes addr (SENSIRION_NUM_WORDS 4) ;;
    let serial_bytes := fill (snd r) serial_bytes in
    store serial (to_uint32 (bytes_to_uint32_t P (map to_uint8 serial_bytes))) ;;;
    ret (fst r)
  else ret ret_.

Definition sht3x_get_driver_version (addr : Z) : M B String.string :=
  ret (SHT_DRV_VERSION_STR P).

(** [return addr;] in a function returning uint8_t. *)
Definition sht3x_get_configured_address (addr : Z) : M B Z :=
  ret (to_uint8 addr).

(** The limit word is computed before the [switch] on the slot. *)
Definition sht3x_set_alert_thd (addr thd humidity temperature : Z) : M B Z :=
  let limitVal := alert_thd_limit_val humidity temperature in
  if thd =? SHT3X_HIALRT_SET then
    sensirion_i2c_write_cmd_with_args addr SHT3X_CMD_WRITE_HIALRT_LIM_SET [limitVal]
  else if thd =? SHT3X_HIALRT_CLR then
    sensirion_i2c_write_cmd_with_args addr SHT3X_CMD_WRITE_HIALRT_LIM_CLR [limitVal]
  else if thd =? SHT3X_LOALRT_CLR then
    sensirion_i2c_write_cmd_with_args addr SHT3X_CMD_WRITE_LOALRT_LIM_CLR [limitVal]
  else if thd =? SHT3X_LOALRT_SET then
    sensirion_i2c_write_cmd_with_args addr SHT3X_CMD_WRITE_LOALRT_LIM_SET [limitVal]
  else
    ret STATUS_ERR_INVALID_PARAMS.

(** [uint16_t word] has no initialiser; the [default] branch reads nothing
    into it, and the decoding after the [switch] is not guarded by [ret]. *)
Definition sht3x_get_alert_thd (addr thd : Z) (humidity temperature : ptr)
  : M B Z :=
  word <- uninitialized 1 ;;
  r <- (if thd =? SHT3X_HIALRT_SET then
          sensirion_i2c_read_cmd addr SHT3X_CMD_READ_HIALRT_LIM_SET 1
        else if thd =? SHT3X_HIALRT_CLR then
          sensirion_i2c_read_cmd addr SHT3X_CMD_READ_HIALRT_LIM_CLR 1
        else if thd =? SHT3X_LOALRT_CLR then
          sensirion_i2c_read_cmd addr SHT3X_CMD_READ_LOALRT_LIM_CLR 1
        else if thd =? SHT3X_LOALRT_SET then
          sensirion_i2c_read_cmd addr SHT3X_CMD_READ_LOALRT_LIM_SET 1
        else
          ret (STATUS_ERR_INVALID_PARAMS, [])) ;;
  let ret_ := fst r in
  let word := word_at 0 (fill (snd r) word) in
  store humidity (alert_thd_humidity word) ;;;
  store temperature (alert_thd_temperature word) ;;;
  ret ret_.

End Driver.

(** ** Sequences of driver calls *)

Inductive call : Type :=
| CallMeasureBlockingRead (addr : Z) (temperature humidity : ptr)
| CallMeasure (addr : Z)
| CallRead (addr : Z) (temperature humidity : ptr)
| CallProbe (addr : Z)
| CallGetStatus (addr : Z) (status : ptr)
| CallClearStatus (addr : Z)
| CallEnableLowPowerMode (enable_low_power_mode : Z)
| CallSetPowerMode (mode : Z)
| CallReadSerial (addr : Z) (serial : ptr)
| CallGetDriverVersion (addr : Z)
| CallGetConfiguredAddress (addr : Z)
| CallSetAlertThd (addr thd humidity temperature : Z)
| CallGetAlertThd (addr thd : Z) (humidity temperature : ptr).

Definition sets_mode (c : call) : bool :=
  match c with
  | CallEnableLowPowerMode _ | CallSetPowerMode _ => true
  | _ => false
  end.

Section Calls.

Context {B : Type}.
Variable P : platform B.
Variable USE_SENSIRION_CLOCK_STRETCHING : bool.

Definition exec (c : call) (s : state B) : state B :=
  match c with
  | CallMeasureBlockingRead addr t h =>
      snd (sht3x_measure_blocking_read P USE_SENSIRION_CLOCK_STRETCHING addr t h s)
  | CallMeasure addr => snd (sht3x_measure P addr s)
  | CallRead addr t h => snd (sht3x_read P addr t h s)
  | CallProbe addr => snd (sht3x_probe P addr s)
  | CallGetStatus addr p => snd (sht3x_get_status P addr p s)
  | CallClearStatus addr => snd (sht3x_clear_status P addr s)
  | CallEnableLowPowerMode e =>
      snd (sht3x_enable_low_power_mode USE_SENSIRION_CLOCK_STRETCHING e s)
  | CallSetPowerMode mode =>
      snd (sht3x_set_power_mode USE_SENSIRION_CLOCK_STRETCHING mode s)
  | CallReadSerial addr p => snd (sht3x_read_serial P addr p s)
  | CallGetDriverVersion addr => snd (sht3x_get_driver_version P addr s)
  | CallGetConfiguredAddress addr => snd (sht3x_get_configured_address addr s)
  | CallSetAlertThd addr thd h t => snd (sht3x_set_alert_thd P addr thd h t s)
  | CallGetAlertThd addr thd h t => snd (sht3x_get_alert_thd P addr thd h t s)
  end.

Definition run (cs : list call) (s : state B) : state B :=
  fold_left (fun s c => exec c s) cs s.

(** The state at program start: the initialiser of [sht3x_cmd_measure],
    nothing logged yet. *)
Definition initial_state (b : B) (m : gmap Z Z) : state B :=
  mkState (SHT3X_CMD_MEASURE_HPM USE_SENSIRION_CLOCK_STRETCHING) b m [].

(** The three measurement commands of the build. *)
Definition is_measure_cmd (c : Z) : Prop :=
  c = SHT3X_CMD_MEASURE_HPM USE_SENSIRION_CLOCK_STRETCHING \/
  c = SHT3X_CMD_MEASURE_MPM USE_SENSIRION_CLOCK_STRETCHING \/
  c = SHT3X_CMD_MEASURE_LPM USE_SENSIRION_CLOCK_STRETCHING.

End Calls.

(** ** A scripted platform, to run the driver on concrete inputs

    Its state is the list of answers still to give: every bus transaction
    takes the next one (status, data); with none left it succeeds and stores
    nothing.  Sleeping takes no answer. *)

Module Scripted.

Definition script : Type := list (Z * list Z).

Definition answer (b : script) : (Z * list Z) * script :=
  match b with
  | [] => ((STATUS_OK, []), [])
  | r :: b' => (r, b')
  end.

Definition answer_status (b : script) : Z * script :=
  (fst (fst (answer b)), snd (answer b)).

(** Most significant byte first, as the sensor sends it. *)
Definition be32 (bytes : list Z) : Z :=
  fold_left (fun acc x => Z.lor (Z.shiftl acc 8) x) (firstn 4 bytes) 0.

Definition scripted : platform script := {|
  bus_write_cmd := fun _ _ => answer_status;
  bus_write_cmd_with_args := fun _ _ _ => answer_status;
  bus_read_words := fun _ _ => answer;
  bus_read_words_as_bytes := fun _ _ => answer;
  bus_read_cmd := fun _ _ _ => answer;
  bus_delayed_read_cmd := fun _ _ _ _ => answer;
  bus_sleep_usec := fun _ b => b;
  bytes_to_uint32_t := be32;
  indeterminate := fun i _ => 0xA5A5 + Z.of_nat i;
  SHT_DRV_VERSION_STR := String.EmptyString
|}.

Definition start (b : script) : state script :=
  initial_state false b ∅.

End Scripted.

(** ** Auxiliary definitions for the statements below *)

(** The integers [lo], [lo + 1], ..., [lo + n - 1]. *)
Definition Z_range (lo : Z) (n : nat) : list Z :=
  map (fun i => lo + Z.of_nat i) (seq 0 n).

(** The two values that [sht3x_set_alert_thd] masks into the limit word. *)
Definition humidity_limit_raw (humidity : Z) : Z :=
  let humidity := to_uint16 humidity in
  to_uint16 (to_uint32 (to_int32 (to_int32 (Z.shiftl humidity 16) - humidity)) / 1000).

Definition temperature_limit_raw (temperature : Z) : Z :=
  let tmp := to_uint32 (to_int16 temperature + 450) in
  to_uint16 (Z.shiftr (to_uint32 (to_uint32 (Z.shiftl tmp 16) - tmp) / 1750) 7).

Definition humidity_roundtrip (h : Z) : Z :=
  alert_thd_humidity (Z.land (humidity_limit_raw h) SHT3X_HUMIDITY_LIMIT_MSK).

Definition temperature_roundtrip (t : Z) : Z :=
  alert_thd_temperature (Z.land (temperature_limit_raw t) SHT3X_TEMPERATURE_LIMIT_MSK).

(** The decoded value is never above the encoded one and at most [d] below. *)
Definition within_below (d x x' : Z) : bool := (x' <=? x) && (x - x' <=? d).

(** The bounds of the round trip as the specification words them, cleared of
    the division by 65535: humidity within [1000*512/65535], temperature
    within [128*1750/65535 + 1]. *)
Definition roundtrip_within_stated_bounds (h t : Z) : Prop :=
  let word := alert_thd_limit_val h t in
  65535 * Z.abs (alert_thd_humidity word - h) <= 1000 * 512 /\
  65535 * Z.abs (alert_thd_temperature word - t) <= 128 * 1750 + 65535.

(** The write and the read command of each alert threshold slot, as the two
    [switch] statements pair them. *)
Definition alert_write_cmd (thd : Z) : Z :=
  if thd =? SHT3X_HIALRT_SET then SHT3X_CMD_WRITE_HIALRT_LIM_SET
  else if thd =? SHT3X_HIALRT_CLR then SHT3X_CMD_WRITE_HIALRT_LIM_CLR
  else if thd =? SHT3X_LOALRT_CLR then SHT3X_CMD_WRITE_LOALRT_LIM_CLR
  else SHT3X_CMD_WRITE_LOALRT_LIM_SET.

Definition alert_read_cmd (thd : Z) : Z :=
  if thd =? SHT3X_HIALRT_SET then SHT3X_CMD_READ_HIALRT_LIM_SET
  else if thd =? SHT3X_HIALRT_CLR then SHT3X_CMD_READ_HIALRT_LIM_CLR
  else if thd =? SHT3X_LOALRT_CLR then SHT3X_CMD_READ_LOALRT_LIM_CLR
  else SHT3X_CMD_READ_LOALRT_LIM_SET.

Definition valid_slot (thd : Z) : Prop :=
  thd = SHT3X_HIALRT_SET \/ thd = SHT3X_HIALRT_CLR \/
  thd = SHT3X_LOALRT_CLR \/ thd = SHT3X_LOALRT_SET.

(** A computation that leaves [sht3x_cmd_measure] as it found it. *)
Definition keeps_cmd {B A : Type} (m : M B A) : Prop :=
  forall s, sht3x_cmd_measure (snd (m s)) = sht3x_cmd_measure s.

(** The two fields of an alert limit word. *)
Definition humidity_field (word : Z) : Z := Z.land word SHT3X_HUMIDITY_LIMIT_MSK.
Definition temperature_field (word : Z) : Z := Z.land word SHT3X_TEMPERATURE_LIMIT_MSK.

(** The limit word that [sht3x_set_alert_thd] builds from the two values
    that [sht3x_get_alert_thd] decodes from [word]: reading a threshold and
    writing it back. *)
Definition alert_thd_write_back (word : Z) : Z :=
  alert_thd_limit_val (alert_thd_humidity word) (alert_thd_temperature word).

(** The pointers a driver call is given to store through. *)
Definition out_ptrs (c : call) : list ptr :=
  match c with
  | CallMeasureBlockingRead _ temperature humidity => [temperature; humidity]
  | CallRead _ temperature humidity => [temperature; humidity]
  | CallGetStatus _ status => [status]
  | CallReadSerial _ serial => [serial]
  | CallGetAlertThd _ _ humidity temperature => [humidity; temperature]
  | _ => []
  end.




(** The command that [sht3x_set_power_mode] selects for [mode]. *)
Definition selected_cmd (clock_stretching : bool) (mode : Z) : Z :=
  if mode =? SHT3X_MEAS_MODE_LPM then SHT3X_CMD_MEASURE_LPM clock_stretching
  else if mode =? SHT3X_MEAS_MODE_MPM then SHT3X_CMD_MEASURE_MPM clock_stretching
  else SHT3X_CMD_MEASURE_HPM clock_stretching.

(** The humidity field is a multiple of 512 below 128 * 512 and the
    temperature field is below 512; these are the checks made on each of
    them: the decoded values stay in range, and writing back a decoded value
    lowers the field by one step unless it is zero. *)
Definition humidity_step_in_range (k : Z) : bool :=
  (0 <=? alert_thd_humidity (512 * k)) && (alert_thd_humidity (512 * k) <=? 992).

Definition temperature_step_in_range (k : Z) : bool :=
  (-450 <=? alert_thd_temperature k) && (alert_thd_temperature k <=? 1296).

Definition humidity_step_written_back (k : Z) : bool :=
  Z.land (humidity_limit_raw (alert_thd_humidity (512 * k))) SHT3X_HUMIDITY_LIMIT_MSK
  =? Z.max 0 (512 * k - 512).

Definition temperature_step_written_back (k : Z) : bool :=
  Z.land (temperature_limit_raw (alert_thd_temperature k)) SHT3X_TEMPERATURE_LIMIT_MSK
  =? Z.max 0 (k - 1).

(** One step up in the argument does not lower the field written, nor the
    value read back. *)
Definition humidity_step_monotone (h : Z) : bool :=
  (Z.land (humidity_limit_raw h) SHT3X_HUMIDITY_LIMIT_MSK
   <=? Z.land (humidity_limit_raw (h + 1)) SHT3X_HUMIDITY_LIMIT_MSK) &&
  (humidity_roundtrip h <=? humidity_roundtrip (h + 1)).

Definition temperature_step_monotone (t : Z) : bool :=
  (Z.land (temperature_limit_raw t) SHT3X_TEMPERATURE_LIMIT_MSK
   <=? Z.land (temperature_limit_raw (t + 1)) SHT3X_TEMPERATURE_LIMIT_MSK) &&
  (temperature_roundtrip t <=? temperature_roundtrip (t + 1)).

(** The requests of the command catalogue of sht3x.c: the three measurement
    commands of the build, clear status and read serial as plain commands;
    the four alert writes with one argument; the four alert reads of one
    word; the status read of one word after 1000 microseconds; reads of two
    words; delays of 1000 and 15000 microseconds. *)
Definition in_catalogue (clock_stretching : bool) (e : event) : bool :=
  let among (c : Z) (l : list Z) := existsb (Z.eqb c) l in
  match e with
  | EvWriteCmd _ c =>
      among c [SHT3X_CMD_MEASURE_HPM clock_stretching;
               SHT3X_CMD_MEASURE_MPM clock_stretching;
               SHT3X_CMD_MEASURE_LPM clock_stretching;
               SHT3X_CMD_CLR_STATUS_REG; SHT3X_CMD_READ_SERIAL_ID]
  | EvWriteCmdWithArgs _ c args =>
      among c [SHT3X_CMD_WRITE_HIALRT_LIM_SET; SHT3X_CMD_WRITE_HIALRT_LIM_CLR;
               SHT3X_CMD_WRITE_LOALRT_LIM_CLR; SHT3X_CMD_WRITE_LOALRT_LIM_SET]
      && (length args =? 1)%nat
  | EvReadCmd _ c n =>
      among c [SHT3X_CMD_READ_HIALRT_LIM_SET; SHT3X_CMD_READ_HIALRT_LIM_CLR;
               SHT3X_CMD_READ_LOALRT_LIM_CLR; SHT3X_CMD_READ_LOALRT_LIM_SET]
      && (n =? 1)
  | EvDelayedReadCmd _ c d n =>
      (c =? SHT3X_CMD_READ_STATUS_REG) && (d =? SHT3X_CMD_DURATION_USEC) && (n =? 1)
  | EvReadWords _ n => n =? 2
  | EvReadWordsAsBytes _ n => n =? 2
  | EvSleepUsec u =>
      among u [SHT3X_CMD_DURATION_USEC; SHT3X_MEASUREMENT_DURATION_USEC]
  end.


(** ** Properties of the fixed-width conversions *)

Lemma to_uint8_small x : is_uint8 x -> to_uint8 x = x.
Proof. unfold is_uint8. intros H. apply Z.mod_small. exact H. Qed.

Lemma to_uint16_small x : is_uint16 x -> to_uint16 x = x.
Proof. unfold is_uint16. intros H. apply Z.mod_small. exact H. Qed.

Lemma to_int32_small x : is_int32 x -> to_int32 x = x.
Proof.
  unfold is_int32, to_int32, to_signed. intros H.
  change (2 ^ (32 - 1)) with 2147483648 in *. change (2 ^ 31) with 2147483648 in *.
  rewrite Z.mod_small; lia.
Qed.

(** A one-bit mask selects exactly that bit. *)
Lemma land_bit_mask (x k : Z) :
  0 <= k -> negb (Z.land x (2 ^ k) =? 0) = Z.testbit x k.
Proof.
  intros Hk.
  assert (E : Z.land x (2 ^ k) = if Z.testbit x k then 2 ^ k else 0).
  { apply Z.bits_inj'. intros n Hn. rewrite Z.land_spec.
    destruct (Z.eq_dec n k) as [->|Hne].
    - rewrite Z.pow2_bits_true by lia.
      destruct (Z.testbit x k); simpl.
      + now rewrite Z.pow2_bits_true by lia.
      + now rewrite Z.bits_0.
    - rewrite Z.pow2_bits_false by lia. rewrite andb_false_r.
      destruct (Z.testbit x k).
      + now rewrite Z.pow2_bits_false by lia.
      + now rewrite Z.bits_0. }
  rewrite E. destruct (Z.testbit x k).
  - assert (0 < 2 ^ k) by (apply Z.pow_pos_nonneg; lia).
    destruct (Z.eqb_spec (2 ^ k) 0); [lia | reflexivity].
  - reflexivity.
Qed.

(** The two fields of the alert limit word do not overlap. *)
Lemma limit_masks_disjoint :
  Z.land SHT3X_TEMPERATURE_LIMIT_MSK SHT3X_HUMIDITY_LIMIT_MSK = 0.
Proof. reflexivity. Qed.

Lemma land_field_l a b :
  Z.land (Z.lor (Z.land a SHT3X_HUMIDITY_LIMIT_MSK) (Z.land b SHT3X_TEMPERATURE_LIMIT_MSK))
         SHT3X_HUMIDITY_LIMIT_MSK
  = Z.land a SHT3X_HUMIDITY_LIMIT_MSK.
Proof.
  rewrite Z.land_lor_distr_l, <- !Z.land_assoc.
  rewrite limit_masks_disjoint, Z.land_diag, Z.land_0_r. apply Z.lor_0_r.
Qed.

Lemma land_field_r a b :
  Z.land (Z.lor (Z.land a SHT3X_HUMIDITY_LIMIT_MSK) (Z.land b SHT3X_TEMPERATURE_LIMIT_MSK))
         SHT3X_TEMPERATURE_LIMIT_MSK
  = Z.land b SHT3X_TEMPERATURE_LIMIT_MSK.
Proof.
  rewrite Z.land_lor_distr_l, <- !Z.land_assoc.
  rewrite (Z.land_comm SHT3X_HUMIDITY_LIMIT_MSK), limit_masks_disjoint.
  rewrite Z.land_diag, Z.land_0_r. apply Z.lor_0_l.
Qed.

(** ** Checking a property on every integer of a finite range *)

Lemma Z_range_In lo n x : lo <= x < lo + Z.of_nat n -> In x (Z_range lo n).
Proof.
  intros H. unfold Z_range. apply in_map_iff.
  exists (Z.to_nat (x - lo)). split; [lia |].
  apply in_seq. lia.
Qed.

Lemma forallb_Z_range (f : Z -> bool) lo n :
  forallb f (Z_range lo n) = true ->
  forall x, lo <= x < lo + Z.of_nat n -> f x = true.
Proof.
  intros H x Hx. rewrite forallb_forall in H. apply H, Z_range_In, Hx.
Qed.

(** ** Alert thresholds: encoding then decoding *)

Lemma alert_thd_limit_val_fields h t :
  alert_thd_limit_val h t =
  Z.lor (Z.land (humidity_limit_raw h) SHT3X_HUMIDITY_LIMIT_MSK)
        (Z.land (temperature_limit_raw t) SHT3X_TEMPERATURE_LIMIT_MSK).
Proof. reflexivity. Qed.

(** Decoding the humidity does not see the temperature field, and conversely. *)
Lemma alert_thd_humidity_limit_val h t :
  alert_thd_humidity (alert_thd_limit_val h t) = humidity_roundtrip h.
Proof.
  unfold humidity_roundtrip, alert_thd_humidity.
  rewrite alert_thd_limit_val_fields, land_field_l.
  now rewrite <- Z.land_assoc, Z.land_diag.
Qed.

Lemma alert_thd_temperature_limit_val h t :
  alert_thd_temperature (alert_thd_limit_val h t) = temperature_roundtrip t.
Proof.
  unfold temperature_roundtrip, alert_thd_temperature.
  rewrite alert_thd_limit_val_fields, land_field_r.
  now rewrite <- Z.land_assoc, Z.land_diag.
Qed.

Lemma humidity_roundtrip_grid :
  forallb (fun h => within_below 8 h (humidity_roundtrip h)) (Z_range 0 1001) = true.
Proof. vm_compute. reflexivity. Qed.

Lemma temperature_roundtrip_grid :
  forallb (fun t => within_below 4 t (temperature_roundtrip t)) (Z_range (-450) 1751) = true.
Proof. vm_compute. reflexivity. Qed.

Lemma within_below_spec d x x' :
  within_below d x x' = true -> 0 <= x - x' <= d.
Proof.
  unfold within_below. intros H. apply andb_prop in H. destruct H as [H1 H2].
  apply Z.leb_le in H1. apply Z.leb_le in H2. lia.
Qed.

(** On a valid slot [sht3x_set_alert_thd] is one write of the slot's command
    with the limit word as its only argument. *)
Lemma set_alert_thd_valid_slot {B : Type} (P : platform B) addr thd h t (s : state B) :
  valid_slot thd ->
  sht3x_set_alert_thd P addr thd h t s
  = sensirion_i2c_write_cmd_with_args P addr (alert_write_cmd thd)
      [alert_thd_limit_val h t] s.
Proof.
  intros [-> | [-> | [-> | ->]]]; reflexivity.
Qed.

(** On a valid slot [sht3x_get_alert_thd] decodes the word the bus hands back. *)
Lemma get_alert_thd_valid_slot {B : Type} (P : platform B) addr thd hp tp
    (s : state B) status w b' :
  valid_slot thd ->
  bus_read_cmd P addr (alert_read_cmd thd) 1 (bus s) = ((status, [w]), b') ->
  sht3x_get_alert_thd P addr thd hp tp s
  = (status,
     mkState (sht3x_cmd_measure s) b'
       (<[tp := alert_thd_temperature (to_uint16 w)]>
          (<[hp := alert_thd_humidity (to_uint16 w)]> (mem s)))
       (trace s ++ [EvReadCmd addr (alert_read_cmd thd) 1])).
Proof.
  intros [-> | [-> | [-> | ->]]] Hbus;
    unfold sht3x_get_alert_thd, bind, ret, uninitialized, store,
      sensirion_i2c_read_cmd, log;
    cbn [Z.eqb SHT3X_HIALRT_SET SHT3X_HIALRT_CLR SHT3X_LOALRT_CLR SHT3X_LOALRT_SET
         Pos.eqb];
    cbv beta iota;
    unfold alert_read_cmd in Hbus;
    cbn [Z.eqb SHT3X_HIALRT_SET SHT3X_HIALRT_CLR SHT3X_LOALRT_CLR SHT3X_LOALRT_SET
         Pos.eqb] in Hbus;
    cbv beta iota in Hbus; rewrite Hbus; reflexivity.
Qed.

(** C1, as stated, fails: for humidity 1000 (and temperature 250) the limit
    word is 0xFE00 + 0xCC, the humidity read back is 992, and 8 tenths of a
    percent is more than 1000*512/65535 (about 7.8; 7 when the division is
    the integer one). *)
Lemma alert_thd_roundtrip_stated_bound_fails :
  0 <= 1000 <= 1000 /\ -450 <= 250 <= 1300 /\
  alert_thd_limit_val 1000 250 = 0xFECC /\
  alert_thd_humidity (alert_thd_limit_val 1000 250) = 992 /\
  ~ roundtrip_within_stated_bounds 1000 250 /\
  ~ Z.abs (alert_thd_humidity (alert_thd_limit_val 1000 250) - 1000)
    <= 1000 * 512 / 65535.
Proof.
  assert (E : alert_thd_humidity (alert_thd_limit_val 1000 250) = 992)
    by reflexivity.
  split; [lia |]. split; [lia |]. split; [reflexivity |]. split; [exact E |].
  unfold roundtrip_within_stated_bounds. rewrite E.
  change (Z.abs (992 - 1000)) with 8. change (1000 * 512 / 65535) with 7.
  split; [intros [H _] | intros H]; lia.
Qed.

(** C1, amended: for every humidity [0 <= h <= 1000] and temperature
    [-450 <= t <= 1300], decoding the limit word built by
    [sht3x_set_alert_thd] with the arithmetic of [sht3x_get_alert_thd] gives a
    humidity at most 8 tenths of a percent below [h] (that is, within
    [1000*512/65535 + 1]) and a temperature at most 4 tenths of a degree
    below [t] (within [128*1750/65535 + 1]); neither is ever above. *)
Theorem alert_thd_roundtrip_bounded (h t : Z) :
  0 <= h <= 1000 -> -450 <= t <= 1300 ->
  let word := alert_thd_limit_val h t in
  0 <= h - alert_thd_humidity word <= 8 /\
  0 <= t - alert_thd_temperature word <= 4 /\
  65535 * Z.abs (alert_thd_humidity word - h) <= 1000 * 512 + 65535 /\
  65535 * Z.abs (alert_thd_temperature word - t) <= 128 * 1750 + 65535.
Proof.
  intros Hh Ht word. subst word.
  rewrite alert_thd_humidity_limit_val, alert_thd_temperature_limit_val.
  assert (Bh : 0 <= h - humidity_roundtrip h <= 8).
  { apply within_below_spec.
    apply (forallb_Z_range _ _ _ humidity_roundtrip_grid h). lia. }
  assert (Bt : 0 <= t - temperature_roundtrip t <= 4).
  { apply within_below_spec.
    apply (forallb_Z_range _ _ _ temperature_roundtrip_grid t). lia. }
  generalize dependent (humidity_roundtrip h).
  generalize dependent (temperature_roundtrip t).
  intros; lia.
Qed.

Lemma alert_thd_roundtrip_bounded_witness :
  (0 <= 1000 <= 1000 /\ -450 <= 1300 <= 1300) /\
  0 <= 1000 - alert_thd_humidity (alert_thd_limit_val 1000 1300) <= 8 /\
  0 <= 1300 - alert_thd_temperature (alert_thd_limit_val 1000 1300) <= 4 /\
  65535 * Z.abs (alert_thd_humidity (alert_thd_limit_val 1000 1300) - 1000)
    <= 1000 * 512 + 65535 /\
  65535 * Z.abs (alert_thd_temperature (alert_thd_limit_val 1000 1300) - 1300)
    <= 128 * 1750 + 65535.
Proof. split; [lia | apply (alert_thd_roundtrip_bounded 1000 1300); lia]. Defined.

(** ** Status word *)

(** C7: on the status word 0x8011 the alert-pending (0x8000), last-CRC-fail
    (0x0001) and system-reset-detected (0x0010) flags are true and the
    humidity (0x0800) and temperature (0x0400) tracking-alert flags are
    false; on every status word each flag is the bit its mask selects. *)
Theorem status_flags_0x8011 :
  SHT3X_IS_ALRT_PENDING 0x8011 = true /\
  SHT3X_IS_LAST_CRC_FAIL 0x8011 = true /\
  SHT3X_IS_SYSTEM_RST_DETECT 0x8011 = true /\
  SHT3X_IS_ALRT_RH_TRACK 0x8011 = false /\
  SHT3X_IS_ALRT_T_TRACK 0x8011 = false /\
  forall status,
    SHT3X_IS_ALRT_PENDING status = Z.testbit status 15 /\
    SHT3X_IS_ALRT_RH_TRACK status = Z.testbit status 11 /\
    SHT3X_IS_ALRT_T_TRACK status = Z.testbit status 10 /\
    SHT3X_IS_SYSTEM_RST_DETECT status = Z.testbit status 4 /\
    SHT3X_IS_LAST_CRC_FAIL status = Z.testbit status 0.
Proof.
  repeat (split; [reflexivity |]).
  intros status.
  repeat split.
  - apply (land_bit_mask status 15); lia.
  - apply (land_bit_mask status 11); lia.
  - apply (land_bit_mask status 10); lia.
  - apply (land_bit_mask status 4); lia.
  - apply (land_bit_mask status 0); lia.
Qed.

(** ** Address passthrough *)

(** C8: [sht3x_get_configured_address] returns the address it is given, for
    every address that the [uint8_t] return type can hold (all 7-bit bus
    addresses, both enumerators included), and it neither reads nor changes
    the driver state: the result is the same in every state. *)
Theorem get_configured_address_identity {B : Type} (addr : Z) (s : state B) :
  is_uint8 addr ->
  sht3x_get_configured_address addr s = (addr, s).
Proof.
  intros H. unfold sht3x_get_configured_address, ret.
  now rewrite to_uint8_small.
Qed.

Lemma get_configured_address_identity_witness :
  is_uint8 SHT3X_I2C_ADDR_ALT /\
  sht3x_get_configured_address SHT3X_I2C_ADDR_ALT (Scripted.start [])
  = (0x45, Scripted.start []).
Proof.
  split.
  - unfold is_uint8, SHT3X_I2C_ADDR_ALT. lia.
  - apply (get_configured_address_identity SHT3X_I2C_ADDR_ALT (Scripted.start [])).
    unfold is_uint8, SHT3X_I2C_ADDR_ALT. lia.
Defined.

(** ** Reading a measurement *)

(** Within the 16-bit range of a raw word no step of the conversions leaves
    int32_t, so they are the plain formulas. *)
Lemma temperature_of_word_exact w :
  is_uint16 w -> temperature_of_word w = Z.shiftr (21875 * w) 13 - 45000.
Proof.
  unfold is_uint16, temperature_of_word. change (2 ^ 16) with 65536. intros H.
  rewrite (to_int32_small w) by (unfold is_int32; change (2 ^ 31) with 2147483648; lia).
  rewrite (to_int32_small (21875 * w))
    by (unfold is_int32; change (2 ^ 31) with 2147483648; lia).
  rewrite Z.shiftr_div_pow2 by lia. change (2 ^ 13) with 8192.
  apply to_int32_small. unfold is_int32. change (2 ^ 31) with 2147483648.
  pose proof (Z.div_pos (21875 * w) 8192 ltac:(lia) ltac:(lia)).
  pose proof (Z.div_le_upper_bound (21875 * w) 8192 (21875 * w) ltac:(lia) ltac:(lia)).
  lia.
Qed.

Lemma humidity_of_word_exact w :
  is_uint16 w -> humidity_of_word w = Z.shiftr (12500 * w) 13.
Proof.
  unfold is_uint16, humidity_of_word. change (2 ^ 16) with 65536. intros H.
  rewrite (to_int32_small w) by (unfold is_int32; change (2 ^ 31) with 2147483648; lia).
  now rewrite (to_int32_small (12500 * w))
    by (unfold is_int32; change (2 ^ 31) with 2147483648; lia).
Qed.

(** A cell of a [uint16_t] buffer holds a 16-bit value. *)
Lemma word_at_uint16 i buf : is_uint16 (word_at i buf).
Proof.
  unfold word_at, is_uint16, to_uint16, to_unsigned.
  apply Z.mod_pos_bound. reflexivity.
Qed.

(** What [sht3x_read] does, whatever the platform answers. *)
Lemma sht3x_read_unfold {B : Type} (P : platform B) addr tp hp (s : state B) :
  sht3x_read P addr tp hp s =
  let words :=
    fill (snd (fst (bus_read_words P addr 2 (bus s))))
         [indeterminate P 0%nat (bus s); indeterminate P 1%nat (bus s)] in
  (fst (fst (bus_read_words P addr 2 (bus s))),
   mkState (sht3x_cmd_measure s)
           (snd (bus_read_words P addr 2 (bus s)))
           (<[hp := humidity_of_word (word_at 1 words)]>
              (<[tp := temperature_of_word (word_at 0 words)]> (mem s)))
           (trace s ++ [EvReadWords addr 2])).
Proof.
  unfold sht3x_read, bind, ret, uninitialized, sensirion_i2c_read_words, store, log.
  change (SENSIRION_NUM_WORDS 4) with 2.
  destruct (bus_read_words P addr 2 (bus s)) as [[st data] b'].
  reflexivity.
Qed.

(** C2: when the bus delivers the 16-bit words [rawT] and [rawH],
    [sht3x_read] stores [((21875 * rawT) >> 13) - 45000] to [*temperature]
    and [(12500 * rawH) >> 13] to [*humidity]; raw temperature 0 gives
    -45000 and 65535 gives 129997, raw humidity 0 gives 0 and 65535 gives
    99998. *)
Theorem sht3x_read_conversion {B : Type} (P : platform B) addr tp hp (s : state B)
    status rawT rawH b' :
  is_uint16 rawT -> is_uint16 rawH ->
  bus_read_words P addr 2 (bus s) = ((status, [rawT; rawH]), b') ->
  sht3x_read P addr tp hp s =
    (status,
     mkState (sht3x_cmd_measure s) b'
             (<[hp := Z.shiftr (12500 * rawH) 13]>
                (<[tp := Z.shiftr (21875 * rawT) 13 - 45000]> (mem s)))
             (trace s ++ [EvReadWords addr 2]))
  /\ temperature_of_word 0 = -45000
  /\ temperature_of_word 65535 = 129997
  /\ humidity_of_word 0 = 0
  /\ humidity_of_word 65535 = 99998.
Proof.
  intros HT HH Hbus.
  split; [| repeat split; reflexivity].
  rewrite sht3x_read_unfold, Hbus. cbn [fst snd].
  change (fill [rawT; rawH] _) with [rawT; rawH].
  change (word_at 0 [rawT; rawH]) with (to_uint16 rawT).
  change (word_at 1 [rawT; rawH]) with (to_uint16 rawH).
  rewrite !to_uint16_small by assumption.
  now rewrite temperature_of_word_exact, humidity_of_word_exact by assumption.
Qed.

Lemma sht3x_read_conversion_witness :
  (is_uint16 0x6666 /\ is_uint16 0x999A /\
   bus_read_words Scripted.scripted 0x44 2
     (bus (Scripted.start [(STATUS_OK, [0x6666; 0x999A])]))
   = ((STATUS_OK, [0x6666; 0x999A]), [])) /\
  sht3x_read Scripted.scripted 0x44 100 104
    (Scripted.start [(STATUS_OK, [0x6666; 0x999A])])
  = (STATUS_OK,
     mkState 0x2400 [] (<[104 := 60000]> (<[100 := 24998]> ∅)) [EvReadWords 0x44 2]).
Proof.
  assert (H1 : is_uint16 0x6666) by (unfold is_uint16; lia).
  assert (H2 : is_uint16 0x999A) by (unfold is_uint16; lia).
  split; [split; [exact H1 | split; [exact H2 | reflexivity]] |].
  exact (proj1 (sht3x_read_conversion Scripted.scripted 0x44 100 104
                  (Scripted.start [(STATUS_OK, [0x6666; 0x999A])])
                  STATUS_OK 0x6666 0x999A [] H1 H2 eq_refl)).
Defined.

(** C6: whatever status the bus read returns, success or failure,
    [sht3x_read] returns that status and stores both outputs, computed by
    the fixed-point conversions from the two words that are in its buffer
    after the read: [((21875 * rawT) >> 13) - 45000] to [*temperature] and
    [(12500 * rawH) >> 13] to [*humidity], where [rawT] and [rawH] are the
    first and second word the bus handed back, or the indeterminate content
    of the uninitialised buffer cell where it handed back none, as 16-bit
    values. *)
Theorem sht3x_read_writes_outputs_on_any_status {B : Type} (P : platform B)
    addr tp hp (s : state B) status data b' :
  bus_read_words P addr 2 (bus s) = ((status, data), b') ->
  let rawT :=
    match data with
    | w0 :: _ => w0
    | [] => indeterminate P 0%nat (bus s)
    end mod 65536 in
  let rawH :=
    match data with
    | _ :: w1 :: _ => w1
    | _ => indeterminate P 1%nat (bus s)
    end mod 65536 in
  sht3x_read P addr tp hp s =
    (status,
     mkState (sht3x_cmd_measure s) b'
             (<[hp := Z.shiftr (12500 * rawH) 13]>
                (<[tp := Z.shiftr (21875 * rawT) 13 - 45000]> (mem s)))
             (trace s ++ [EvReadWords addr 2]))
  /\ mem (snd (sht3x_read P addr tp hp s)) !! hp = Some (Z.shiftr (12500 * rawH) 13)
  /\ (tp <> hp ->
      mem (snd (sht3x_read P addr tp hp s)) !! tp
      = Some (Z.shiftr (21875 * rawT) 13 - 45000)).
Proof.
  intros Hbus rawT rawH.
  assert (E : sht3x_read P addr tp hp s =
    (status,
     mkState (sht3x_cmd_measure s) b'
             (<[hp := Z.shiftr (12500 * rawH) 13]>
                (<[tp := Z.shiftr (21875 * rawT) 13 - 45000]> (mem s)))
             (trace s ++ [EvReadWords addr 2]))).
  { rewrite sht3x_read_unfold, Hbus. cbv zeta. cbn [fst snd].
    rewrite (temperature_of_word_exact _ (word_at_uint16 _ _)).
    rewrite (humidity_of_word_exact _ (word_at_uint16 _ _)).
    subst rawT rawH.
    destruct data as [| w0 [| w1 data]]; reflexivity. }
  rewrite E. cbn [snd mem]. split; [reflexivity |]. split.
  - apply lookup_insert_eq.
  - intros Hne. rewrite lookup_insert_ne by congruence. apply lookup_insert_eq.
Qed.

Lemma sht3x_read_writes_outputs_on_any_status_witness :
  bus_read_words Scripted.scripted 0x44 2
    (bus (Scripted.start [(STATUS_CRC_FAIL, [0x6666])]))
  = ((STATUS_CRC_FAIL, [0x6666]), []) /\
  sht3x_read Scripted.scripted 0x44 100 104
    (Scripted.start [(STATUS_CRC_FAIL, [0x6666])])
  = (STATUS_CRC_FAIL,
     mkState 0x2400 [] (<[104 := 64706]> (<[100 := 24998]> ∅)) [EvReadWords 0x44 2]).
Proof.
  split; [reflexivity |].
  exact (proj1 (sht3x_read_writes_outputs_on_any_status Scripted.scripted 0x44 100 104
                  (Scripted.start [(STATUS_CRC_FAIL, [0x6666])])
                  STATUS_CRC_FAIL [0x6666] [] eq_refl)).
Defined.

(** ** The measurement command selector *)

Section Selector.

Context {B : Type}.
Variable P : platform B.
Variable USE_SENSIRION_CLOCK_STRETCHING : bool.

Lemma keeps_cmd_ret {A : Type} (a : A) : keeps_cmd (ret (B := B) a).
Proof. intros s. reflexivity. Qed.

Lemma keeps_cmd_bind {A C : Type} (m : M B A) (k : A -> M B C) :
  keeps_cmd m -> (forall a, keeps_cmd (k a)) -> keeps_cmd (bind m k).
Proof.
  intros Hm Hk s. unfold bind. specialize (Hm s).
  destruct (m s) as [a s']. cbn [snd] in Hm. rewrite Hk. exact Hm.
Qed.

Lemma keeps_cmd_if {A : Type} (c : bool) (m1 m2 : M B A) :
  keeps_cmd m1 -> keeps_cmd m2 -> keeps_cmd (if c then m1 else m2).
Proof. destruct c; trivial. Qed.

Lemma keeps_cmd_write_cmd addr c : keeps_cmd (sensirion_i2c_write_cmd P addr c).
Proof.
  intros s. unfold sensirion_i2c_write_cmd.
  destruct (bus_write_cmd P addr c (bus s)). reflexivity.
Qed.

Lemma keeps_cmd_write_cmd_with_args addr c args :
  keeps_cmd (sensirion_i2c_write_cmd_with_args P addr c args).
Proof.
  intros s. unfold sensirion_i2c_write_cmd_with_args.
  destruct (bus_write_cmd_with_args P addr c args (bus s)). reflexivity.
Qed.

Lemma keeps_cmd_read_words addr n : keeps_cmd (sensirion_i2c_read_words P addr n).
Proof.
  intros s. unfold sensirion_i2c_read_words.
  destruct (bus_read_words P addr n (bus s)). reflexivity.
Qed.

Lemma keeps_cmd_read_words_as_bytes addr n :
  keeps_cmd (sensirion_i2c_read_words_as_bytes P addr n).
Proof.
  intros s. unfold sensirion_i2c_read_words_as_bytes.
  destruct (bus_read_words_as_bytes P addr n (bus s)). reflexivity.
Qed.

Lemma keeps_cmd_read_cmd addr c n : keeps_cmd (sensirion_i2c_read_cmd P addr c n).
Proof.
  intros s. unfold sensirion_i2c_read_cmd.
  destruct (bus_read_cmd P addr c n (bus s)). reflexivity.
Qed.

Lemma keeps_cmd_delayed_read_cmd addr c d n :
  keeps_cmd (sensirion_i2c_delayed_read_cmd P addr c d n).
Proof.
  intros s. unfold sensirion_i2c_delayed_read_cmd.
  destruct (bus_delayed_read_cmd P addr c d n (bus s)). reflexivity.
Qed.

Lemma keeps_cmd_sleep us : keeps_cmd (sensirion_sleep_usec P us).
Proof. intros s. reflexivity. Qed.

Lemma keeps_cmd_store p v : keeps_cmd (store (B := B) p v).
Proof. intros s. reflexivity. Qed.

Lemma keeps_cmd_store_words data : forall p, keeps_cmd (store_words (B := B) p data).
Proof.
  induction data as [| w data IH]; intros p; cbn [store_words].
  - apply keeps_cmd_ret.
  - apply keeps_cmd_bind; [apply keeps_cmd_store | intros _; apply IH].
Qed.

Lemma keeps_cmd_get : keeps_cmd (get_cmd_measure (B := B)).
Proof. intros s. reflexivity. Qed.

Lemma keeps_cmd_uninitialized n : keeps_cmd (uninitialized P n).
Proof. intros s. reflexivity. Qed.

Create HintDb keeps discriminated.
#[local] Hint Resolve keeps_cmd_ret keeps_cmd_write_cmd
  keeps_cmd_write_cmd_with_args keeps_cmd_read_words keeps_cmd_read_words_as_bytes
  keeps_cmd_read_cmd keeps_cmd_delayed_read_cmd keeps_cmd_sleep keeps_cmd_store
  keeps_cmd_store_words keeps_cmd_get keeps_cmd_uninitialized : keeps.

(** Walks down the binds and conditionals of a driver function. *)
Ltac keeps :=
  repeat match goal with
         | |- forall _, _ => intro
         | |- keeps_cmd (bind _ _) => apply keeps_cmd_bind
         | |- keeps_cmd (if _ then _ else _) => apply keeps_cmd_if
         | |- keeps_cmd (let _ := _ in _) => cbv zeta
         | |- keeps_cmd _ => solve [auto 1 with keeps nocore]
         end.

Lemma keeps_cmd_measure addr : keeps_cmd (sht3x_measure P addr).
Proof. unfold sht3x_measure. keeps. Qed.

Lemma keeps_cmd_read addr tp hp : keeps_cmd (sht3x_read P addr tp hp).
Proof. unfold sht3x_read. keeps. Qed.

Lemma keeps_cmd_measure_blocking_read addr tp hp :
  keeps_cmd (sht3x_measure_blocking_read P USE_SENSIRION_CLOCK_STRETCHING addr tp hp).
Proof.
  unfold sht3x_measure_blocking_read.
  pose proof keeps_cmd_measure. pose proof keeps_cmd_read. keeps.
Qed.

Lemma keeps_cmd_probe addr : keeps_cmd (sht3x_probe P addr).
Proof. unfold sht3x_probe. keeps. Qed.

Lemma keeps_cmd_get_status addr p : keeps_cmd (sht3x_get_status P addr p).
Proof. unfold sht3x_get_status. keeps. Qed.

Lemma keeps_cmd_clear_status addr : keeps_cmd (sht3x_clear_status P addr).
Proof. unfold sht3x_clear_status. keeps. Qed.

Lemma keeps_cmd_read_serial addr p : keeps_cmd (sht3x_read_serial P addr p).
Proof. unfold sht3x_read_serial. keeps. Qed.

Lemma keeps_cmd_set_alert_thd addr thd h t :
  keeps_cmd (sht3x_set_alert_thd P addr thd h t).
Proof. unfold sht3x_set_alert_thd. keeps. Qed.

Lemma keeps_cmd_get_alert_thd addr thd hp tp :
  keeps_cmd (sht3x_get_alert_thd P addr thd hp tp).
Proof. unfold sht3x_get_alert_thd. keeps. Qed.

(** Only the two mode functions assign [sht3x_cmd_measure]. *)
Lemma exec_keeps_cmd c s :
  sets_mode c = false ->
  sht3x_cmd_measure (exec P USE_SENSIRION_CLOCK_STRETCHING c s) = sht3x_cmd_measure s.
Proof.
  destruct c; cbn [sets_mode exec]; intros H; try discriminate H.
  - apply keeps_cmd_measure_blocking_read.
  - apply keeps_cmd_measure.
  - apply keeps_cmd_read.
  - apply keeps_cmd_probe.
  - apply keeps_cmd_get_status.
  - apply keeps_cmd_clear_status.
  - apply keeps_cmd_read_serial.
  - reflexivity.
  - reflexivity.
  - apply keeps_cmd_set_alert_thd.
  - apply keeps_cmd_get_alert_thd.
Qed.

Lemma run_keeps_cmd cs : forall s,
  forallb (fun c => negb (sets_mode c)) cs = true ->
  sht3x_cmd_measure (run P USE_SENSIRION_CLOCK_STRETCHING cs s) = sht3x_cmd_measure s.
Proof.
  induction cs as [| c cs IH]; intros s H; cbn [run fold_left forallb] in *.
  - reflexivity.
  - apply andb_prop in H. destruct H as [Hc Hcs].
    apply negb_true_iff in Hc.
    fold (run P USE_SENSIRION_CLOCK_STRETCHING cs (exec P USE_SENSIRION_CLOCK_STRETCHING c s)).
    rewrite IH by exact Hcs. apply exec_keeps_cmd, Hc.
Qed.

(** [sht3x_measure] sends the selector and nothing else. *)
Lemma sht3x_measure_trace addr s :
  trace (snd (sht3x_measure P addr s))
  = trace s ++ [EvWriteCmd addr (sht3x_cmd_measure s)].
Proof.
  unfold sht3x_measure, bind, get_cmd_measure, sensirion_i2c_write_cmd.
  destruct (bus_write_cmd P addr (sht3x_cmd_measure s) (bus s)). reflexivity.
Qed.

Lemma set_power_mode_cmd mode (s : state B) :
  sht3x_cmd_measure (snd (sht3x_set_power_mode USE_SENSIRION_CLOCK_STRETCHING mode s))
  = if mode =? SHT3X_MEAS_MODE_LPM
    then SHT3X_CMD_MEASURE_LPM USE_SENSIRION_CLOCK_STRETCHING
    else if mode =? SHT3X_MEAS_MODE_MPM
    then SHT3X_CMD_MEASURE_MPM USE_SENSIRION_CLOCK_STRETCHING
    else SHT3X_CMD_MEASURE_HPM USE_SENSIRION_CLOCK_STRETCHING.
Proof.
  unfold sht3x_set_power_mode.
  destruct (mode =? SHT3X_MEAS_MODE_LPM); [| destruct (mode =? SHT3X_MEAS_MODE_MPM);
    [| destruct (mode =? SHT3X_MEAS_MODE_HPM)]];
    destruct USE_SENSIRION_CLOCK_STRETCHING; reflexivity.
Qed.

Lemma enable_low_power_mode_cmd e (s : state B) :
  sht3x_cmd_measure
    (snd (sht3x_enable_low_power_mode USE_SENSIRION_CLOCK_STRETCHING e s))
  = if to_uint8 e =? 0
    then SHT3X_CMD_MEASURE_HPM USE_SENSIRION_CLOCK_STRETCHING
    else SHT3X_CMD_MEASURE_LPM USE_SENSIRION_CLOCK_STRETCHING.
Proof.
  unfold sht3x_enable_low_power_mode.
  destruct (to_uint8 e =? 0); destruct USE_SENSIRION_CLOCK_STRETCHING; reflexivity.
Qed.

End Selector.

(** C3: in the build without clock stretching, after
    [sht3x_set_power_mode(SHT3X_MEAS_MODE_LPM)] the next [sht3x_measure]
    sends command 0x2416, and after [sht3x_enable_low_power_mode(0)] it sends
    0x2400, to whatever address it is given and whatever other driver
    functions (none of them a mode function) were called in between. *)
Theorem measure_issues_selected_command {B : Type} (P : platform B)
    (between : list call) (addr : Z) (s : state B) :
  forallb (fun c => negb (sets_mode c)) between = true ->
  let low :=
    run P false between (snd (sht3x_set_power_mode false SHT3X_MEAS_MODE_LPM s)) in
  let high :=
    run P false between (snd (sht3x_enable_low_power_mode false 0 s)) in
  trace (snd (sht3x_measure P addr low)) = trace low ++ [EvWriteCmd addr 0x2416] /\
  trace (snd (sht3x_measure P addr high)) = trace high ++ [EvWriteCmd addr 0x2400].
Proof.
  intros Hb low high. subst low high.
  rewrite !sht3x_measure_trace, !run_keeps_cmd by exact Hb.
  rewrite set_power_mode_cmd, enable_low_power_mode_cmd.
  split; reflexivity.
Qed.

Lemma measure_issues_selected_command_witness :
  forallb (fun c => negb (sets_mode c))
          [CallRead 0x44 100 104; CallClearStatus 0x44] = true /\
  trace (snd (sht3x_measure Scripted.scripted 0x45
           (run Scripted.scripted false [CallRead 0x44 100 104; CallClearStatus 0x44]
              (snd (sht3x_set_power_mode false SHT3X_MEAS_MODE_LPM
                      (Scripted.start []))))))
  = [EvReadWords 0x44 2; EvWriteCmd 0x44 0x3041; EvWriteCmd 0x45 0x2416] /\
  trace (snd (sht3x_measure Scripted.scripted 0x45
           (run Scripted.scripted false [CallRead 0x44 100 104; CallClearStatus 0x44]
              (snd (sht3x_enable_low_power_mode false 0 (Scripted.start []))))))
  = [EvReadWords 0x44 2; EvWriteCmd 0x44 0x3041; EvWriteCmd 0x45 0x2400].
Proof.
  split; [reflexivity |].
  exact (measure_issues_selected_command Scripted.scripted
           [CallRead 0x44 100 104; CallClearStatus 0x44] 0x45 (Scripted.start [])
           eq_refl).
Defined.

(** C9: [sht3x_cmd_measure] starts as the high-precision command and, after
    any sequence of driver calls, is one of the three measurement commands of
    the build (0x2400, 0x240B, 0x2416 without clock stretching).  From any
    state, [sht3x_set_power_mode] and [sht3x_enable_low_power_mode] leave it
    one of the three, and [sht3x_set_power_mode] with a mode that is none of
    the three enumerators selects the high-precision command; it has no
    status to return. *)
Theorem cmd_measure_always_valid {B : Type} (P : platform B) (cs : bool) :
  (forall (b : B) m,
     sht3x_cmd_measure (initial_state cs b m) = SHT3X_CMD_MEASURE_HPM cs) /\
  (forall calls (b : B) m,
     is_measure_cmd cs (sht3x_cmd_measure (run P cs calls (initial_state cs b m)))) /\
  (forall mode (s : state B),
     is_measure_cmd cs (sht3x_cmd_measure (snd (sht3x_set_power_mode cs mode s)))) /\
  (forall e (s : state B),
     is_measure_cmd cs (sht3x_cmd_measure (snd (sht3x_enable_low_power_mode cs e s)))) /\
  (forall mode (s : state B),
     mode <> SHT3X_MEAS_MODE_LPM -> mode <> SHT3X_MEAS_MODE_MPM ->
     mode <> SHT3X_MEAS_MODE_HPM ->
     sht3x_set_power_mode cs mode s
     = (tt, mkState (SHT3X_CMD_MEASURE_HPM cs) (bus s) (mem s) (trace s))) /\
  SHT3X_CMD_MEASURE_HPM false = 0x2400 /\
  SHT3X_CMD_MEASURE_MPM false = 0x240B /\
  SHT3X_CMD_MEASURE_LPM false = 0x2416.
Proof.
  assert (Hset : forall mode (s : state B),
    is_measure_cmd cs (sht3x_cmd_measure (snd (sht3x_set_power_mode cs mode s)))).
  { intros mode s. rewrite set_power_mode_cmd. unfold is_measure_cmd.
    destruct (mode =? SHT3X_MEAS_MODE_LPM); [| destruct (mode =? SHT3X_MEAS_MODE_MPM)];
      auto. }
  assert (Hen : forall e (s : state B),
    is_measure_cmd cs (sht3x_cmd_measure (snd (sht3x_enable_low_power_mode cs e s)))).
  { intros e s. rewrite enable_low_power_mode_cmd. unfold is_measure_cmd.
    destruct (to_uint8 e =? 0); auto. }
  assert (Hexec : forall c (s : state B),
    is_measure_cmd cs (sht3x_cmd_measure s) ->
    is_measure_cmd cs (sht3x_cmd_measure (exec P cs c s))).
  { intros c s Hs. destruct (sets_mode c) eqn:Hc.
    - destruct c; try discriminate Hc; cbn [exec]; [apply Hen | apply Hset].
    - now rewrite exec_keeps_cmd. }
  split; [reflexivity |]. split.
  { intros calls b m. unfold run.
    assert (H0 : is_measure_cmd cs (sht3x_cmd_measure (initial_state cs b m)))
      by (left; reflexivity).
    revert H0. generalize (initial_state cs b m).
    induction calls as [| c calls IH]; intros s Hs; cbn [fold_left].
    - exact Hs.
    - apply IH, Hexec, Hs. }
  split; [exact Hset |]. split; [exact Hen |]. split.
  { intros mode s H1 H2 H3. unfold sht3x_set_power_mode.
    apply Z.eqb_neq in H1, H2, H3. rewrite H1, H2, H3.
    destruct cs; reflexivity. }
  repeat split; reflexivity.
Qed.

(** ** Compound operations *)

(** [sht3x_measure_blocking_read] when the command write does not succeed. *)
Lemma measure_blocking_read_write_failed {B : Type} (P : platform B) cs addr tp hp
    (s : state B) code b' :
  code <> STATUS_OK ->
  bus_write_cmd P addr (sht3x_cmd_measure s) (bus s) = (code, b') ->
  sht3x_measure_blocking_read P cs addr tp hp s
  = (code, mkState (sht3x_cmd_measure s) b' (mem s)
             (trace s ++ [EvWriteCmd addr (sht3x_cmd_measure s)])).
Proof.
  intros Hcode Hbus.
  unfold sht3x_measure_blocking_read, sht3x_measure, bind, get_cmd_measure,
    sensirion_i2c_write_cmd, ret.
  rewrite Hbus. apply Z.eqb_neq in Hcode. rewrite Hcode. reflexivity.
Qed.

(** [sht3x_read_serial] when the command write does not succeed. *)
Lemma read_serial_write_failed {B : Type} (P : platform B) addr sp
    (s : state B) code b' :
  code <> STATUS_OK ->
  bus_write_cmd P addr SHT3X_CMD_READ_SERIAL_ID (bus s) = (code, b') ->
  sht3x_read_serial P addr sp s
  = (code, mkState (sht3x_cmd_measure s)
             (bus_sleep_usec P SHT3X_CMD_DURATION_USEC b') (mem s)
             (trace s ++ [EvWriteCmd addr SHT3X_CMD_READ_SERIAL_ID;
                          EvSleepUsec SHT3X_CMD_DURATION_USEC])).
Proof.
  intros Hcode Hbus.
  unfold sht3x_read_serial, bind, uninitialized, sensirion_i2c_write_cmd,
    sensirion_sleep_usec, ret, log.
  rewrite Hbus. cbn [bus trace mem sht3x_cmd_measure].
  apply Z.eqb_neq in Hcode. rewrite Hcode.
  now rewrite <- app_assoc.
Qed.

(** [sht3x_read_serial] when the command write succeeds: the bytes are read
    and [*serial] is assigned, whatever the status of the read. *)
Lemma read_serial_write_ok {B : Type} (P : platform B) addr sp (s : state B) b' :
  bus_write_cmd P addr SHT3X_CMD_READ_SERIAL_ID (bus s) = (STATUS_OK, b') ->
  let b1 := bus_sleep_usec P SHT3X_CMD_DURATION_USEC b' in
  let r := bus_read_words_as_bytes P addr 2 b1 in
  let serial_bytes :=
    fill (snd (fst r)) (map (fun i => indeterminate P i (bus s)) (seq 0 4)) in
  sht3x_read_serial P addr sp s
  = (fst (fst r),
     mkState (sht3x_cmd_measure s) (snd r)
       (<[sp := to_uint32 (bytes_to_uint32_t P (map to_uint8 serial_bytes))]> (mem s))
       (trace s ++ [EvWriteCmd addr SHT3X_CMD_READ_SERIAL_ID;
                    EvSleepUsec SHT3X_CMD_DURATION_USEC;
                    EvReadWordsAsBytes addr 2])).
Proof.
  intros Hbus b1 r serial_bytes. subst serial_bytes r b1.
  unfold sht3x_read_serial, bind, uninitialized, sensirion_i2c_write_cmd,
    sensirion_sleep_usec, sensirion_i2c_read_words_as_bytes, store, ret, log.
  rewrite Hbus. cbn [bus trace mem sht3x_cmd_measure].
  change (STATUS_OK =? STATUS_OK) with true. cbv iota.
  change (SENSIRION_NUM_WORDS 4) with 2. cbn [bus trace mem sht3x_cmd_measure].
  destruct (bus_read_words_as_bytes P addr 2
              (bus_sleep_usec P SHT3X_CMD_DURATION_USEC b')) as [[st data] b2].
  cbn [fst snd bus trace mem sht3x_cmd_measure].
  now rewrite <- !app_assoc.
Qed.

(** C4: when the initial command write of [sht3x_measure_blocking_read]
    returns a code other than STATUS_OK, the function returns that code and
    has asked nothing of the platform but that write (no delay, no read) and
    stored nothing; and, independently, when the initial command write of
    [sht3x_read_serial] returns a code other than STATUS_OK, the function
    returns that code and does not read the serial bytes: after the write it
    only sleeps.  Each half has the failure of its own write as its only
    assumption. *)
Theorem compound_operations_short_circuit {B : Type} (P : platform B) cs addr
    tp hp sp (s : state B) :
  (forall code b1,
     code <> STATUS_OK ->
     bus_write_cmd P addr (sht3x_cmd_measure s) (bus s) = (code, b1) ->
     sht3x_measure_blocking_read P cs addr tp hp s
     = (code, mkState (sht3x_cmd_measure s) b1 (mem s)
                (trace s ++ [EvWriteCmd addr (sht3x_cmd_measure s)]))) /\
  (forall code b2,
     code <> STATUS_OK ->
     bus_write_cmd P addr SHT3X_CMD_READ_SERIAL_ID (bus s) = (code, b2) ->
     sht3x_read_serial P addr sp s
     = (code, mkState (sht3x_cmd_measure s) (bus_sleep_usec P 1000 b2) (mem s)
                (trace s ++ [EvWriteCmd addr 0x3780; EvSleepUsec 1000]))).
Proof.
  split.
  - intros code b1 Hcode Hbus.
    now apply measure_blocking_read_write_failed.
  - intros code b2 Hcode Hbus.
    now apply read_serial_write_failed.
Qed.

Lemma compound_operations_short_circuit_witness :
  (STATUS_ERR_BAD_DATA <> STATUS_OK /\
   bus_write_cmd Scripted.scripted 0x44 0x2400
     (bus (Scripted.start [(STATUS_ERR_BAD_DATA, [])]))
   = (STATUS_ERR_BAD_DATA, []) /\
   STATUS_CRC_FAIL <> STATUS_OK /\
   bus_write_cmd Scripted.scripted 0x45 SHT3X_CMD_READ_SERIAL_ID
     (bus (Scripted.start [(STATUS_CRC_FAIL, []); (STATUS_OK, [1; 2; 3; 4])]))
   = (STATUS_CRC_FAIL, [(STATUS_OK, [1; 2; 3; 4])])) /\
  sht3x_measure_blocking_read Scripted.scripted false 0x44 100 104
    (Scripted.start [(STATUS_ERR_BAD_DATA, [])])
  = (STATUS_ERR_BAD_DATA, mkState 0x2400 [] ∅ [EvWriteCmd 0x44 0x2400]) /\
  sht3x_read_serial Scripted.scripted 0x45 108
    (Scripted.start [(STATUS_CRC_FAIL, []); (STATUS_OK, [1; 2; 3; 4])])
  = (STATUS_CRC_FAIL,
     mkState 0x2400 [(STATUS_OK, [1; 2; 3; 4])] ∅
       [EvWriteCmd 0x45 0x3780; EvSleepUsec 1000]).
Proof.
  assert (Hbad : STATUS_ERR_BAD_DATA <> STATUS_OK) by discriminate.
  assert (Hcrc : STATUS_CRC_FAIL <> STATUS_OK) by discriminate.
  split; [split; [exact Hbad | split; [reflexivity | split; [exact Hcrc | reflexivity]]] |].
  split.
  - exact (proj1 (compound_operations_short_circuit Scripted.scripted false 0x44
                    100 104 108 (Scripted.start [(STATUS_ERR_BAD_DATA, [])]))
                 STATUS_ERR_BAD_DATA [] Hbad eq_refl).
  - exact (proj2 (compound_operations_short_circuit Scripted.scripted false 0x45
                    100 104 108
                    (Scripted.start [(STATUS_CRC_FAIL, []); (STATUS_OK, [1; 2; 3; 4])]))
                 STATUS_CRC_FAIL [(STATUS_OK, [1; 2; 3; 4])] Hcrc eq_refl).
Defined.

(** C10: when the serial-ID command write fails, [sht3x_read_serial] returns
    the write's code with the caller's memory, [*serial] included, as it was,
    and it has still slept SHT3X_CMD_DURATION_USEC = 1000 microseconds after
    the write; it assigns [*serial] only when the write succeeded. *)
Theorem read_serial_failure_keeps_serial {B : Type} (P : platform B) addr sp
    (s : state B) code b' :
  code <> STATUS_OK ->
  bus_write_cmd P addr SHT3X_CMD_READ_SERIAL_ID (bus s) = (code, b') ->
  sht3x_read_serial P addr sp s
  = (code, mkState (sht3x_cmd_measure s) (bus_sleep_usec P 1000 b') (mem s)
             (trace s ++ [EvWriteCmd addr 0x3780; EvSleepUsec 1000]))
  /\ mem (snd (sht3x_read_serial P addr sp s)) !! sp = mem s !! sp
  /\ (forall (s2 : state B) b2,
        bus_write_cmd P addr SHT3X_CMD_READ_SERIAL_ID (bus s2) = (STATUS_OK, b2) ->
        is_Some (mem (snd (sht3x_read_serial P addr sp s2)) !! sp)).
Proof.
  intros Hcode Hbus.
  rewrite (read_serial_write_failed P addr sp s code b' Hcode Hbus).
  split; [reflexivity |]. split; [reflexivity |].
  intros s2 b2 Hok. rewrite (read_serial_write_ok P addr sp s2 b2 Hok).
  cbn [snd mem]. rewrite lookup_insert_eq. eexists. reflexivity.
Qed.

Lemma read_serial_failure_keeps_serial_witness :
  (STATUS_CRC_FAIL <> STATUS_OK /\
   bus_write_cmd Scripted.scripted 0x45 SHT3X_CMD_READ_SERIAL_ID
     (bus (mkState 0x2400 [(STATUS_CRC_FAIL, [])] {[ 108 := 77 ]} []))
   = (STATUS_CRC_FAIL, [])) /\
  sht3x_read_serial Scripted.scripted 0x45 108
    (mkState 0x2400 [(STATUS_CRC_FAIL, [])] {[ 108 := 77 ]} [])
  = (STATUS_CRC_FAIL,
     mkState 0x2400 [] {[ 108 := 77 ]} [EvWriteCmd 0x45 0x3780; EvSleepUsec 1000]).
Proof.
  assert (Hne : STATUS_CRC_FAIL <> STATUS_OK) by discriminate.
  split; [split; [exact Hne | reflexivity] |].
  exact (proj1 (read_serial_failure_keeps_serial Scripted.scripted 0x45 108
                  (mkState 0x2400 [(STATUS_CRC_FAIL, [])] {[ 108 := 77 ]} [])
                  STATUS_CRC_FAIL [] Hne eq_refl)).
Defined.

(** ** Alert thresholds: the slot argument *)



(** ** Further properties of the conversions in [sht3x_read] *)

(** The shift-based conversions are the formulas of the comment in
    [sht3x_read], [175 * S_T / 2^16 - 45] and [100 * S_RH / 2^16], in
    thousandths and rounded down; they never decrease when the raw word
    grows. *)
Theorem read_conversion_is_documented_formula (w w' : Z) :
  is_uint16 w -> is_uint16 w' ->
  temperature_of_word w = 175000 * w / 65536 - 45000 /\
  humidity_of_word w = 100000 * w / 65536 /\
  (w <= w' ->
   temperature_of_word w <= temperature_of_word w' /\
   humidity_of_word w <= humidity_of_word w').
Proof.
  intros Hw Hw'.
  assert (ET : forall x, is_uint16 x ->
                         temperature_of_word x = 175000 * x / 65536 - 45000).
  { intros x Hx. rewrite temperature_of_word_exact by exact Hx.
    rewrite Z.shiftr_div_pow2 by lia. change (2 ^ 13) with 8192.
    replace (175000 * x) with (8 * (21875 * x)) by lia.
    change 65536 with (8 * 8192).
    now rewrite Z.div_mul_cancel_l by lia. }
  assert (EH : forall x, is_uint16 x -> humidity_of_word x = 100000 * x / 65536).
  { intros x Hx. rewrite humidity_of_word_exact by exact Hx.
    rewrite Z.shiftr_div_pow2 by lia. change (2 ^ 13) with 8192.
    replace (100000 * x) with (8 * (12500 * x)) by lia.
    change 65536 with (8 * 8192).
    now rewrite Z.div_mul_cancel_l by lia. }
  split; [apply ET, Hw |]. split; [apply EH, Hw |].
  intros Hle. rewrite !ET, !EH by assumption.
  pose proof (Z.div_le_mono (175000 * w) (175000 * w') 65536 ltac:(lia) ltac:(lia)).
  pose proof (Z.div_le_mono (100000 * w) (100000 * w') 65536 ltac:(lia) ltac:(lia)).
  lia.
Qed.

Lemma read_conversion_is_documented_formula_witness :
  (is_uint16 0x6666 /\ is_uint16 0x999A) /\
  temperature_of_word 0x6666 = 175000 * 0x6666 / 65536 - 45000 /\
  humidity_of_word 0x6666 = 100000 * 0x6666 / 65536 /\
  (0x6666 <= 0x999A ->
   temperature_of_word 0x6666 <= temperature_of_word 0x999A /\
   humidity_of_word 0x6666 <= humidity_of_word 0x999A).
Proof.
  assert (H1 : is_uint16 0x6666) by (unfold is_uint16; lia).
  assert (H2 : is_uint16 0x999A) by (unfold is_uint16; lia).
  split; [split; assumption |].
  exact (read_conversion_is_documented_formula 0x6666 0x999A H1 H2).
Defined.

(** The values [sht3x_read] can store, over all raw words. *)
Lemma read_conversion_range w :
  is_uint16 w ->
  -45000 <= temperature_of_word w <= 129997 /\ 0 <= humidity_of_word w <= 99998.
Proof.
  intros Hw.
  rewrite temperature_of_word_exact, humidity_of_word_exact by exact Hw.
  rewrite !Z.shiftr_div_pow2 by lia. change (2 ^ 13) with 8192.
  unfold is_uint16 in Hw. change (2 ^ 16) with 65536 in Hw.
  pose proof (Z.div_pos (21875 * w) 8192 ltac:(lia) ltac:(lia)).
  pose proof (Z.div_pos (12500 * w) 8192 ltac:(lia) ltac:(lia)).
  pose proof (Z.div_le_mono (21875 * w) (21875 * 65535) 8192 ltac:(lia) ltac:(lia)) as HT.
  pose proof (Z.div_le_mono (12500 * w) (12500 * 65535) 8192 ltac:(lia) ltac:(lia)) as HH.
  change (21875 * 65535 / 8192) with 174997 in HT.
  change (12500 * 65535 / 8192) with 99998 in HH.
  lia.
Qed.

(** Whatever the platform answers, with whatever status, [sht3x_read] leaves
    a humidity between 0 and 99998 in [*humidity] and, when the two pointers
    differ, a temperature between -45000 and 129997 in [*temperature]; when
    they are equal the cell holds the humidity, stored last. *)
Theorem sht3x_read_outputs_in_range {B : Type} (P : platform B) addr tp hp
    (s : state B) :
  (exists h, mem (snd (sht3x_read P addr tp hp s)) !! hp = Some h /\ 0 <= h <= 99998) /\
  (tp <> hp ->
   exists t, mem (snd (sht3x_read P addr tp hp s)) !! tp = Some t /\
             -45000 <= t <= 129997).
Proof.
  rewrite sht3x_read_unfold. cbv zeta. cbn [snd mem].
  split.
  - eexists. split; [apply lookup_insert_eq |].
    apply read_conversion_range, word_at_uint16.
  - intros Hne. eexists. split.
    + rewrite lookup_insert_ne by congruence. apply lookup_insert_eq.
    + apply read_conversion_range, word_at_uint16.
Qed.

(** ** Further properties of the compound operations *)

(** When the command write succeeds, [sht3x_measure_blocking_read] is the
    write, then a delay of SHT3X_MEASUREMENT_DURATION_USEC = 15000
    microseconds in the build without clock stretching and no delay in the
    build with it, then exactly [sht3x_read]: it returns the status of the
    read and stores what the read stores. *)
Theorem measure_blocking_read_success {B : Type} (P : platform B) (cs : bool)
    addr tp hp (s : state B) b1 :
  bus_write_cmd P addr (sht3x_cmd_measure s) (bus s) = (STATUS_OK, b1) ->
  let s1 :=
    mkState (sht3x_cmd_measure s)
            (if cs then b1 else bus_sleep_usec P 15000 b1)
            (mem s)
            (trace s ++ EvWriteCmd addr (sht3x_cmd_measure s)
                     :: (if cs then [] else [EvSleepUsec 15000])) in
  sht3x_measure_blocking_read P cs addr tp hp s = sht3x_read P addr tp hp s1 /\
  trace (snd (sht3x_measure_blocking_read P cs addr tp hp s))
  = trace s ++ EvWriteCmd addr (sht3x_cmd_measure s)
            :: (if cs then [] else [EvSleepUsec 15000]) ++ [EvReadWords addr 2].
Proof.
  intros Hbus s1.
  assert (E : sht3x_measure_blocking_read P cs addr tp hp s
              = sht3x_read P addr tp hp s1).
  { unfold sht3x_measure_blocking_read, sht3x_measure, bind at 1 2 3,
      get_cmd_measure, sensirion_i2c_write_cmd.
    rewrite Hbus. change (STATUS_OK =? STATUS_OK) with true. cbv iota.
    subst s1. destruct cs.
    - unfold bind, ret, log. cbn [sht3x_cmd_measure bus mem trace]. reflexivity.
    - unfold bind, sensirion_sleep_usec, log.
      cbn [sht3x_cmd_measure bus mem trace].
      rewrite <- app_assoc. reflexivity. }
  split; [exact E |].
  rewrite E, sht3x_read_unfold. cbv zeta. subst s1. cbn [snd trace].
  rewrite <- app_assoc. destruct cs; reflexivity.
Qed.

Lemma measure_blocking_read_success_witness :
  bus_write_cmd Scripted.scripted 0x44 0x2400
    (bus (Scripted.start [(STATUS_OK, []); (STATUS_OK, [0x6666; 0x999A])]))
  = (STATUS_OK, [(STATUS_OK, [0x6666; 0x999A])]) /\
  sht3x_measure_blocking_read Scripted.scripted false 0x44 100 104
    (Scripted.start [(STATUS_OK, []); (STATUS_OK, [0x6666; 0x999A])])
  = (STATUS_OK,
     mkState 0x2400 [] (<[104 := 60000]> (<[100 := 24998]> ∅))
       [EvWriteCmd 0x44 0x2400; EvSleepUsec 15000; EvReadWords 0x44 2]).
Proof.
  split; [reflexivity |].
  exact (proj1 (measure_blocking_read_success Scripted.scripted false 0x44 100 104
                  (Scripted.start [(STATUS_OK, []); (STATUS_OK, [0x6666; 0x999A])])
                  [(STATUS_OK, [0x6666; 0x999A])] eq_refl)).
Defined.

(** [sht3x_probe] and [sht3x_get_status] make the same single transaction (a
    delayed read of one word with command 0xF32D and a delay of 1000
    microseconds) and return its status; [sht3x_probe] leaves the caller's
    memory as it was, and [sht3x_get_status] changes it only by the word the
    platform stored through [status], if it stored one. *)
Theorem probe_and_get_status {B : Type} (P : platform B) addr p (s : state B) :
  let r := bus_delayed_read_cmd P addr 0xF32D 1000 1 (bus s) in
  sht3x_probe P addr s
  = (fst (fst r),
     mkState (sht3x_cmd_measure s) (snd r) (mem s)
             (trace s ++ [EvDelayedReadCmd addr 0xF32D 1000 1])) /\
  sht3x_get_status P addr p s
  = (fst (fst r),
     mkState (sht3x_cmd_measure s) (snd r)
             (match snd (fst r) with
              | [] => mem s
              | w :: _ => <[p := to_uint16 w]> (mem s)
              end)
             (trace s ++ [EvDelayedReadCmd addr 0xF32D 1000 1])).
Proof.
  intros r. subst r.
  unfold sht3x_probe, sht3x_get_status, bind, ret, sensirion_i2c_delayed_read_cmd, log.
  change SHT3X_CMD_READ_STATUS_REG with 0xF32D.
  change SHT3X_CMD_DURATION_USEC with 1000.
  destruct (bus_delayed_read_cmd P addr 0xF32D 1000 1 (bus s)) as [[st data] b'].
  cbn [fst snd]. split; [reflexivity |].
  destruct data as [| w data]; reflexivity.
Qed.

(** ** Further properties of the mode functions *)

(** [sht3x_enable_low_power_mode(e)] is [sht3x_set_power_mode] with
    SHT3X_MEAS_MODE_LPM when the uint8_t [e] is not zero (any non-zero value,
    not only 1) and with SHT3X_MEAS_MODE_HPM when it is zero; it can never
    select the medium mode. *)
Theorem enable_low_power_mode_as_set_power_mode {B : Type} (cs : bool) (e : Z)
    (s : state B) :
  sht3x_enable_low_power_mode cs e s
  = sht3x_set_power_mode cs
      (if to_uint8 e =? 0 then SHT3X_MEAS_MODE_HPM else SHT3X_MEAS_MODE_LPM) s
  /\ sht3x_cmd_measure (snd (sht3x_enable_low_power_mode cs e s))
     <> SHT3X_CMD_MEASURE_MPM cs.
Proof.
  unfold sht3x_enable_low_power_mode, sht3x_set_power_mode.
  destruct (to_uint8 e =? 0); destruct cs; split; (reflexivity || discriminate).
Qed.

(** The mode functions make no bus transaction, no delay and no store, and
    the later of two mode calls decides alone: the state after both is the
    state after the second one only. *)
Theorem mode_call_overrides {B : Type} (P : platform B) (cs : bool) (c1 c2 : call)
    (s : state B) :
  sets_mode c1 = true -> sets_mode c2 = true ->
  bus (exec P cs c1 s) = bus s /\
  mem (exec P cs c1 s) = mem s /\
  trace (exec P cs c1 s) = trace s /\
  exec P cs c2 (exec P cs c1 s) = exec P cs c2 s.
Proof.
  intros H1 H2.
  destruct c1; try discriminate H1; destruct c2; try discriminate H2;
    cbn [exec]; unfold sht3x_enable_low_power_mode, sht3x_set_power_mode;
    repeat match goal with
           | |- context [if ?c then _ else _] => destruct c
           end;
    repeat split; reflexivity.
Qed.

Lemma mode_call_overrides_witness :
  (sets_mode (CallSetPowerMode SHT3X_MEAS_MODE_MPM) = true /\
   sets_mode (CallEnableLowPowerMode 1) = true) /\
  exec Scripted.scripted false (CallEnableLowPowerMode 1)
    (exec Scripted.scripted false (CallSetPowerMode SHT3X_MEAS_MODE_MPM)
       (Scripted.start []))
  = mkState 0x2416 [] ∅ [].
Proof.
  split; [split; reflexivity |].
  exact (proj2 (proj2 (proj2
    (mode_call_overrides Scripted.scripted false
       (CallSetPowerMode SHT3X_MEAS_MODE_MPM) (CallEnableLowPowerMode 1)
       (Scripted.start []) eq_refl eq_refl)))).
Defined.

(** In either build and for every mode value, after
    [sht3x_set_power_mode(mode)] and any driver calls that are not mode
    calls, [sht3x_measure] sends the low-power command for
    SHT3X_MEAS_MODE_LPM, the medium one for SHT3X_MEAS_MODE_MPM and the
    high-precision one for every other value; a driver whose mode was never
    set sends the high-precision command.  With clock stretching the three
    commands are 0x2C10, 0x2C0D and 0x2C06. *)
Theorem measure_sends_command_of_mode {B : Type} (P : platform B) (cs : bool)
    (mode : Z) (between : list call) (addr : Z) (s : state B) (b : B) (m : gmap Z Z) :
  forallb (fun c => negb (sets_mode c)) between = true ->
  let s1 := run P cs between (snd (sht3x_set_power_mode cs mode s)) in
  let s0 := run P cs between (initial_state cs b m) in
  trace (snd (sht3x_measure P addr s1))
  = trace s1 ++ [EvWriteCmd addr (selected_cmd cs mode)] /\
  trace (snd (sht3x_measure P addr s0))
  = trace s0 ++ [EvWriteCmd addr (SHT3X_CMD_MEASURE_HPM cs)] /\
  selected_cmd true SHT3X_MEAS_MODE_LPM = 0x2C10 /\
  selected_cmd true SHT3X_MEAS_MODE_MPM = 0x2C0D /\
  selected_cmd true SHT3X_MEAS_MODE_HPM = 0x2C06 /\
  selected_cmd false SHT3X_MEAS_MODE_MPM = 0x240B /\
  (mode <> SHT3X_MEAS_MODE_LPM -> mode <> SHT3X_MEAS_MODE_MPM ->
   selected_cmd cs mode = SHT3X_CMD_MEASURE_HPM cs).
Proof.
  intros Hb s1 s0. subst s1 s0.
  rewrite !sht3x_measure_trace, !run_keeps_cmd by exact Hb.
  rewrite set_power_mode_cmd. fold (selected_cmd cs mode).
  repeat (split; [reflexivity |]).
  intros H1 H2. unfold selected_cmd.
  apply Z.eqb_neq in H1, H2. now rewrite H1, H2.
Qed.

Lemma measure_sends_command_of_mode_witness :
  forallb (fun c => negb (sets_mode c)) [CallProbe 0x44] = true /\
  trace (snd (sht3x_measure Scripted.scripted 0x45
           (run Scripted.scripted true [CallProbe 0x44]
              (snd (sht3x_set_power_mode true SHT3X_MEAS_MODE_MPM
                      (initial_state true [] ∅))))))
  = [EvDelayedReadCmd 0x44 0xF32D 1000 1; EvWriteCmd 0x45 0x2C0D].
Proof.
  split; [reflexivity |].
  exact (proj1 (measure_sends_command_of_mode Scripted.scripted true
                  SHT3X_MEAS_MODE_MPM [CallProbe 0x44] 0x45
                  (initial_state true [] ∅) [] ∅ eq_refl)).
Defined.

(** ** What a driver call can touch *)

(** Unfolds a driver function down to the platform's answers. *)
Ltac run_driver :=
  cbv [exec sht3x_measure_blocking_read sht3x_measure sht3x_read sht3x_probe
       sht3x_get_status sht3x_clear_status sht3x_enable_low_power_mode
       sht3x_set_power_mode sht3x_read_serial sht3x_get_driver_version
       sht3x_get_configured_address sht3x_set_alert_thd sht3x_get_alert_thd
       bind ret uninitialized store log set_cmd_measure get_cmd_measure
       sensirion_i2c_write_cmd sensirion_i2c_write_cmd_with_args
       sensirion_i2c_read_words sensirion_i2c_read_words_as_bytes
       sensirion_i2c_read_cmd sensirion_i2c_delayed_read_cmd sensirion_sleep_usec];
  repeat (cbn [fst snd trace mem bus sht3x_cmd_measure];
          match goal with
          | |- context [bus_write_cmd ?P ?a ?c ?b] =>
              destruct (bus_write_cmd P a c b) as [? ?]
          | |- context [bus_write_cmd_with_args ?P ?a ?c ?l ?b] =>
              destruct (bus_write_cmd_with_args P a c l b) as [? ?]
          | |- context [bus_read_words ?P ?a ?n ?b] =>
              destruct (bus_read_words P a n b) as [[? ?] ?]
          | |- context [bus_read_words_as_bytes ?P ?a ?n ?b] =>
              destruct (bus_read_words_as_bytes P a n b) as [[? ?] ?]
          | |- context [bus_read_cmd ?P ?a ?c ?n ?b] =>
              destruct (bus_read_cmd P a c n b) as [[? ?] ?]
          | |- context [bus_delayed_read_cmd ?P ?a ?c ?d ?n ?b] =>
              destruct (bus_delayed_read_cmd P a c d n b) as [[? ?] ?]
          | |- context [if ?c then _ else _] => destruct c
          | |- context [store_words _ (firstn 1 ?d)] =>
              destruct d; cbv [firstn store_words bind ret store]
          end);
  cbn [fst snd trace mem bus sht3x_cmd_measure].

(** A driver call changes the caller's memory at most at the cells whose
    addresses it was given as output pointers; a call that takes none
    ([sht3x_measure], [sht3x_probe], [sht3x_clear_status], the mode
    functions, [sht3x_get_driver_version], [sht3x_get_configured_address],
    [sht3x_set_alert_thd]) leaves the memory as it was. *)
Theorem exec_stores_only_through_out_ptrs {B : Type} (P : platform B) (cs : bool)
    (c : call) (s : state B) :
  (forall q, ~ In q (out_ptrs c) -> mem (exec P cs c s) !! q = mem s !! q) /\
  (out_ptrs c = [] -> mem (exec P cs c s) = mem s).
Proof.
  split.
  - intros q Hq.
    destruct c; cbn [out_ptrs In] in Hq; run_driver;
      rewrite ?lookup_insert_ne by tauto; reflexivity.
  - intros Hnone.
    destruct c; try discriminate Hnone; run_driver; reflexivity.
Qed.


(** ** Further properties of the alert thresholds *)

Lemma humidity_field_limit_val h t :
  humidity_field (alert_thd_limit_val h t)
  = Z.land (humidity_limit_raw h) SHT3X_HUMIDITY_LIMIT_MSK.
Proof. unfold humidity_field. now rewrite alert_thd_limit_val_fields, land_field_l. Qed.

Lemma temperature_field_limit_val h t :
  temperature_field (alert_thd_limit_val h t)
  = Z.land (temperature_limit_raw t) SHT3X_TEMPERATURE_LIMIT_MSK.
Proof. unfold temperature_field. now rewrite alert_thd_limit_val_fields, land_field_r. Qed.

(** The limit word fits 16 bits whatever the arguments are. *)
Lemma alert_thd_limit_val_uint16 h t : is_uint16 (alert_thd_limit_val h t).
Proof.
  assert (E : alert_thd_limit_val h t = Z.land (alert_thd_limit_val h t) (Z.ones 16)).
  { rewrite alert_thd_limit_val_fields at 2.
    rewrite Z.land_lor_distr_l, <- !Z.land_assoc.
    change (Z.land SHT3X_HUMIDITY_LIMIT_MSK (Z.ones 16)) with SHT3X_HUMIDITY_LIMIT_MSK.
    change (Z.land SHT3X_TEMPERATURE_LIMIT_MSK (Z.ones 16))
      with SHT3X_TEMPERATURE_LIMIT_MSK.
    apply alert_thd_limit_val_fields. }
  rewrite E, Z.land_ones by lia. unfold is_uint16.
  apply Z.mod_pos_bound. reflexivity.
Qed.

(** On each of the four slots [sht3x_set_alert_thd] makes one bus write and
    nothing else: the slot's own write command (0x611D, 0x6116, 0x610B,
    0x6100, no two slots sharing one) with a single argument, the limit word,
    which fits 16 bits whatever humidity and temperature were passed; it
    returns the status of that write and stores nothing. *)
Theorem set_alert_thd_single_write {B : Type} (P : platform B) addr thd h t
    (s : state B) :
  valid_slot thd ->
  let w := alert_thd_limit_val h t in
  let r := bus_write_cmd_with_args P addr (alert_write_cmd thd) [w] (bus s) in
  is_uint16 w /\
  sht3x_set_alert_thd P addr thd h t s
  = (fst r,
     mkState (sht3x_cmd_measure s) (snd r) (mem s)
             (trace s ++ [EvWriteCmdWithArgs addr (alert_write_cmd thd) [w]])) /\
  alert_write_cmd SHT3X_HIALRT_SET = 0x611D /\
  alert_write_cmd SHT3X_HIALRT_CLR = 0x6116 /\
  alert_write_cmd SHT3X_LOALRT_CLR = 0x610B /\
  alert_write_cmd SHT3X_LOALRT_SET = 0x6100.
Proof.
  intros Hv w r. subst r w.
  split; [apply alert_thd_limit_val_uint16 |].
  split; [| repeat split; reflexivity].
  rewrite (set_alert_thd_valid_slot P addr thd h t s Hv).
  unfold sensirion_i2c_write_cmd_with_args, log.
  destruct (bus_write_cmd_with_args P addr (alert_write_cmd thd)
              [alert_thd_limit_val h t] (bus s)).
  reflexivity.
Qed.

Lemma set_alert_thd_single_write_witness :
  valid_slot SHT3X_LOALRT_CLR /\
  sht3x_set_alert_thd Scripted.scripted 0x44 SHT3X_LOALRT_CLR 1000 250
    (Scripted.start [(STATUS_OK, [])])
  = (STATUS_OK, mkState 0x2400 [] ∅ [EvWriteCmdWithArgs 0x44 0x610B [0xFECC]]).
Proof.
  assert (Hv : valid_slot SHT3X_LOALRT_CLR) by (right; right; left; reflexivity).
  split; [exact Hv |].
  exact (proj1 (proj2 (set_alert_thd_single_write Scripted.scripted 0x44
                         SHT3X_LOALRT_CLR 1000 250
                         (Scripted.start [(STATUS_OK, [])]) Hv))).
Defined.

(** The humidity field of any word is one of the 128 multiples of 512. *)
Lemma humidity_field_steps w :
  humidity_field w = 512 * ((w / 512) mod 128) /\ 0 <= (w / 512) mod 128 < 128.
Proof.
  split; [| apply Z.mod_pos_bound; reflexivity].
  unfold humidity_field.
  change SHT3X_HUMIDITY_LIMIT_MSK with (Z.shiftl (Z.ones 7) 9).
  assert (E : Z.land w (Z.shiftl (Z.ones 7) 9)
              = Z.shiftl (Z.land (Z.shiftr w 9) (Z.ones 7)) 9).
  { apply Z.bits_inj'. intros n Hn.
    rewrite Z.land_spec, !Z.shiftl_spec by lia.
    destruct (Z.lt_ge_cases n 9) as [Hlt | Hge].
    - rewrite !(Z.testbit_neg_r _ (n - 9)) by lia. apply andb_false_r.
    - rewrite Z.land_spec, Z.shiftr_spec by lia.
      now replace (n - 9 + 9) with n by lia. }
  rewrite E, Z.land_ones, Z.shiftr_div_pow2, Z.shiftl_mul_pow2 by lia.
  change (2 ^ 9) with 512. change (2 ^ 7) with 128. lia.
Qed.

(** The temperature field of any word is below 512. *)
Lemma temperature_field_steps w :
  temperature_field w = w mod 512 /\ 0 <= w mod 512 < 512.
Proof.
  split; [| apply Z.mod_pos_bound; reflexivity].
  unfold temperature_field.
  change SHT3X_TEMPERATURE_LIMIT_MSK with (Z.ones 9).
  now rewrite Z.land_ones by lia.
Qed.

(** The decoders see their own field only. *)
Lemma alert_thd_humidity_of_field w :
  alert_thd_humidity w = alert_thd_humidity (humidity_field w).
Proof.
  unfold alert_thd_humidity, humidity_field.
  now rewrite <- Z.land_assoc, Z.land_diag.
Qed.

Lemma alert_thd_temperature_of_field w :
  alert_thd_temperature w = alert_thd_temperature (temperature_field w).
Proof.
  unfold alert_thd_temperature, temperature_field.
  now rewrite <- Z.land_assoc, Z.land_diag.
Qed.

Lemma humidity_steps_in_range :
  forallb humidity_step_in_range (Z_range 0 128) = true.
Proof. vm_compute. reflexivity. Qed.

Lemma temperature_steps_in_range :
  forallb temperature_step_in_range (Z_range 0 512) = true.
Proof. vm_compute. reflexivity. Qed.

Lemma humidity_steps_written_back :
  forallb humidity_step_written_back (Z_range 0 128) = true.
Proof. vm_compute. reflexivity. Qed.

Lemma temperature_steps_written_back :
  forallb temperature_step_written_back (Z_range 0 512) = true.
Proof. vm_compute. reflexivity. Qed.

Lemma humidity_step_in_range_spec k :
  humidity_step_in_range k = true -> 0 <= alert_thd_humidity (512 * k) <= 992.
Proof.
  unfold humidity_step_in_range. intros H.
  apply andb_prop in H. destruct H as [H1 H2].
  apply Z.leb_le in H1, H2. split; assumption.
Qed.

Lemma temperature_step_in_range_spec k :
  temperature_step_in_range k = true -> -450 <= alert_thd_temperature k <= 1296.
Proof.
  unfold temperature_step_in_range. intros H.
  apply andb_prop in H. destruct H as [H1 H2].
  apply Z.leb_le in H1, H2. split; assumption.
Qed.

Lemma alert_thd_decode_range w :
  0 <= alert_thd_humidity w <= 992 /\ -450 <= alert_thd_temperature w <= 1296.
Proof.
  rewrite (alert_thd_humidity_of_field w), (alert_thd_temperature_of_field w).
  destruct (humidity_field_steps w) as [-> Hk].
  destruct (temperature_field_steps w) as [-> Hj].
  split.
  - apply humidity_step_in_range_spec.
    apply (forallb_Z_range _ _ _ humidity_steps_in_range). lia.
  - apply temperature_step_in_range_spec.
    apply (forallb_Z_range _ _ _ temperature_steps_in_range). lia.
Qed.

(** Whatever the slot (valid or not) and whatever the platform answers,
    [sht3x_get_alert_thd] leaves a temperature between -450 and 1296 in
    [*temperature] and, when the two pointers differ, a humidity between 0
    and 992 in [*humidity]: a humidity threshold of 100.0 percent is never
    read back.  When the pointers are equal the cell holds the temperature,
    stored last. *)
Theorem get_alert_thd_outputs_in_range {B : Type} (P : platform B) addr thd hp tp
    (s : state B) :
  (exists t, mem (snd (sht3x_get_alert_thd P addr thd hp tp s)) !! tp = Some t /\
             -450 <= t <= 1296) /\
  (hp <> tp ->
   exists h, mem (snd (sht3x_get_alert_thd P addr thd hp tp s)) !! hp = Some h /\
             0 <= h <= 992).
Proof.
  split; [| intros Hne]; run_driver;
    (eexists; split;
     [ rewrite ?lookup_insert_ne by congruence; apply lookup_insert_eq
     | apply alert_thd_decode_range ]).
Qed.

Lemma humidity_step_written_back_spec k :
  humidity_step_written_back k = true ->
  Z.land (humidity_limit_raw (alert_thd_humidity (512 * k))) SHT3X_HUMIDITY_LIMIT_MSK
  = Z.max 0 (512 * k - 512).
Proof.
  unfold humidity_step_written_back. intros H. apply Z.eqb_eq in H. exact H.
Qed.

Lemma temperature_step_written_back_spec k :
  temperature_step_written_back k = true ->
  Z.land (temperature_limit_raw (alert_thd_temperature k)) SHT3X_TEMPERATURE_LIMIT_MSK
  = Z.max 0 (k - 1).
Proof.
  unfold temperature_step_written_back. intros H. apply Z.eqb_eq in H. exact H.
Qed.

(** Reading a threshold and writing the two values back does not restore
    the limit word: [sht3x_set_alert_thd] applied to what
    [sht3x_get_alert_thd] decoded from a word gives a word whose humidity
    field is one step (512) lower and whose temperature field is one step
    (1) lower, a field that is zero staying zero. *)
Theorem alert_thd_write_back_steps_down (w : Z) :
  humidity_field (alert_thd_write_back w) = Z.max 0 (humidity_field w - 512) /\
  temperature_field (alert_thd_write_back w) = Z.max 0 (temperature_field w - 1).
Proof.
  unfold alert_thd_write_back.
  rewrite humidity_field_limit_val, temperature_field_limit_val.
  rewrite (alert_thd_humidity_of_field w), (alert_thd_temperature_of_field w).
  destruct (humidity_field_steps w) as [-> Hk].
  destruct (temperature_field_steps w) as [-> Hj].
  split.
  - apply humidity_step_written_back_spec.
    apply (forallb_Z_range _ _ _ humidity_steps_written_back). lia.
  - apply temperature_step_written_back_spec.
    apply (forallb_Z_range _ _ _ temperature_steps_written_back). lia.
Qed.

(** A function that does not decrease from one integer to the next does not
    decrease over the range. *)
Lemma monotone_from_steps (f : Z -> Z) (lo hi : Z) :
  (forall x, lo <= x < hi -> f x <= f (x + 1)) ->
  forall a b, lo <= a <= b -> b <= hi -> f a <= f b.
Proof.
  intros Hstep a b Hab Hb.
  remember (Z.to_nat (b - a)) as n eqn:En.
  revert b Hab Hb En. induction n as [| n IH]; intros b Hab Hb En.
  - assert (b = a) by lia. subst b. lia.
  - specialize (IH (b - 1) ltac:(lia) ltac:(lia) ltac:(lia)).
    specialize (Hstep (b - 1) ltac:(lia)).
    replace (b - 1 + 1) with b in Hstep by lia. lia.
Qed.

Lemma humidity_steps_monotone :
  forallb humidity_step_monotone (Z_range 0 1000) = true.
Proof. vm_compute. reflexivity. Qed.

Lemma temperature_steps_monotone :
  forallb temperature_step_monotone (Z_range (-450) 1750) = true.
Proof. vm_compute. reflexivity. Qed.

(** Over the documented ranges (humidity 0 to 1000, temperature -450 to
    1300) the encoding keeps the order of thresholds: a higher humidity or
    temperature never gives a lower field in the limit word, nor a lower
    value when the word is decoded again. *)
Theorem alert_thd_encoding_monotone (h1 h2 t1 t2 : Z) :
  0 <= h1 <= h2 -> h2 <= 1000 -> -450 <= t1 <= t2 -> t2 <= 1300 ->
  let w1 := alert_thd_limit_val h1 t1 in
  let w2 := alert_thd_limit_val h2 t2 in
  humidity_field w1 <= humidity_field w2 /\
  temperature_field w1 <= temperature_field w2 /\
  alert_thd_humidity w1 <= alert_thd_humidity w2 /\
  alert_thd_temperature w1 <= alert_thd_temperature w2.
Proof.
  intros Hh Hh2 Ht Ht2 w1 w2. subst w1 w2.
  rewrite !humidity_field_limit_val, !temperature_field_limit_val,
    !alert_thd_humidity_limit_val, !alert_thd_temperature_limit_val.
  assert (SH : forall x, 0 <= x < 1000 -> humidity_step_monotone x = true).
  { intros x Hx. apply (forallb_Z_range _ _ _ humidity_steps_monotone x). lia. }
  assert (ST : forall x, -450 <= x < 1300 -> temperature_step_monotone x = true).
  { intros x Hx. apply (forallb_Z_range _ _ _ temperature_steps_monotone x). lia. }
  repeat split.
  - apply (monotone_from_steps
             (fun h => Z.land (humidity_limit_raw h) SHT3X_HUMIDITY_LIMIT_MSK) 0 1000);
      [| lia | lia].
    intros x Hx. specialize (SH x Hx). unfold humidity_step_monotone in SH.
    apply andb_prop in SH. destruct SH as [SH _]. now apply Z.leb_le in SH.
  - apply (monotone_from_steps
             (fun t => Z.land (temperature_limit_raw t) SHT3X_TEMPERATURE_LIMIT_MSK)
             (-450) 1300); [| lia | lia].
    intros x Hx. specialize (ST x Hx). unfold temperature_step_monotone in ST.
    apply andb_prop in ST. destruct ST as [ST _]. now apply Z.leb_le in ST.
  - apply (monotone_from_steps humidity_roundtrip 0 1000); [| lia | lia].
    intros x Hx. specialize (SH x Hx). unfold humidity_step_monotone in SH.
    apply andb_prop in SH. destruct SH as [_ SH]. now apply Z.leb_le in SH.
  - apply (monotone_from_steps temperature_roundtrip (-450) 1300); [| lia | lia].
    intros x Hx. specialize (ST x Hx). unfold temperature_step_monotone in ST.
    apply andb_prop in ST. destruct ST as [_ ST]. now apply Z.leb_le in ST.
Qed.

Lemma alert_thd_encoding_monotone_witness :
  (0 <= 300 <= 800 /\ 800 <= 1000 /\ -450 <= -100 <= 600 /\ 600 <= 1300) /\
  humidity_field (alert_thd_limit_val 300 (-100))
    <= humidity_field (alert_thd_limit_val 800 600) /\
  temperature_field (alert_thd_limit_val 300 (-100))
    <= temperature_field (alert_thd_limit_val 800 600) /\
  alert_thd_humidity (alert_thd_limit_val 300 (-100))
    <= alert_thd_humidity (alert_thd_limit_val 800 600) /\
  alert_thd_temperature (alert_thd_limit_val 300 (-100))
    <= alert_thd_temperature (alert_thd_limit_val 800 600).
Proof.
  split; [lia |].
  apply (alert_thd_encoding_monotone 300 800 (-100) 600); lia.
Defined.

Lemma humidity_above_range_wraps :
  forallb (fun h => Z.land (humidity_limit_raw h) SHT3X_HUMIDITY_LIMIT_MSK =? 0)
          (Z_range 1001 7) = true.
Proof. vm_compute. reflexivity. Qed.

Lemma temperature_above_range_wraps :
  forallb (fun t => Z.land (temperature_limit_raw t) SHT3X_TEMPERATURE_LIMIT_MSK =? 0)
          (Z_range 1301 3) = true.
Proof. vm_compute. reflexivity. Qed.

(** [sht3x_set_alert_thd] does not clamp its arguments.  The top of each
    range gives the highest field (humidity 1000 gives 0xFE00, temperature
    1300 gives 0x1FF), and just above it the conversion to uint16_t and the
    mask make the field wrap to zero: humidities 1001 to 1007 are written as
    0 percent and temperatures 1301 to 1303 as -45.0 degrees. *)
Theorem alert_thd_encoding_wraps_above_range (h t : Z) :
  humidity_field (alert_thd_limit_val 1000 t) = 0xFE00 /\
  temperature_field (alert_thd_limit_val h 1300) = 0x1FF /\
  (1000 < h <= 1007 ->
   humidity_field (alert_thd_limit_val h t) = 0 /\
   alert_thd_humidity (alert_thd_limit_val h t) = 0) /\
  (1300 < t <= 1303 ->
   temperature_field (alert_thd_limit_val h t) = 0 /\
   alert_thd_temperature (alert_thd_limit_val h t) = -450).
Proof.
  rewrite !humidity_field_limit_val, !temperature_field_limit_val.
  split; [reflexivity |]. split; [reflexivity |]. split.
  - intros Hh.
    pose proof (forallb_Z_range _ _ _ humidity_above_range_wraps h ltac:(lia)) as E.
    apply Z.eqb_eq in E. split; [exact E |].
    rewrite alert_thd_humidity_of_field, humidity_field_limit_val, E. reflexivity.
  - intros Ht.
    pose proof (forallb_Z_range _ _ _ temperature_above_range_wraps t ltac:(lia)) as E.
    apply Z.eqb_eq in E. split; [exact E |].
    rewrite alert_thd_temperature_of_field, temperature_field_limit_val, E. reflexivity.
Qed.

(** Setting a threshold and reading it back: when the bus hands
    [sht3x_get_alert_thd] the word that [sht3x_set_alert_thd] sent for the
    same slot, for a humidity of 0 to 1000 and a temperature of -450 to 1300
    written to distinct output cells, the humidity read is at most 8 below
    the one set, the temperature read at most 4 below, neither is above, and
    the status returned is the one of the read. *)
Theorem set_then_get_alert_thd {B : Type} (P : platform B) addr thd h t hp tp
    (s0 s : state B) w status b' :
  valid_slot thd -> 0 <= h <= 1000 -> -450 <= t <= 1300 -> hp <> tp ->
  trace (snd (sht3x_set_alert_thd P addr thd h t s0))
  = trace s0 ++ [EvWriteCmdWithArgs addr (alert_write_cmd thd) [w]] ->
  bus_read_cmd P addr (alert_read_cmd thd) 1 (bus s) = ((status, [w]), b') ->
  fst (sht3x_get_alert_thd P addr thd hp tp s) = status /\
  exists h' t',
    mem (snd (sht3x_get_alert_thd P addr thd hp tp s)) !! hp = Some h' /\
    mem (snd (sht3x_get_alert_thd P addr thd hp tp s)) !! tp = Some t' /\
    0 <= h - h' <= 8 /\ 0 <= t - t' <= 4.
Proof.
  intros Hv Hh Ht Hne Hset Hget.
  assert (Ew : w = alert_thd_limit_val h t).
  { rewrite (set_alert_thd_valid_slot P addr thd h t s0 Hv) in Hset.
    unfold sensirion_i2c_write_cmd_with_args, log in Hset.
    destruct (bus_write_cmd_with_args P addr (alert_write_cmd thd)
                [alert_thd_limit_val h t] (bus s0)).
    cbn [snd trace] in Hset. apply app_inv_head in Hset.
    injection Hset as Hset. symmetry. exact Hset. }
  rewrite (get_alert_thd_valid_slot P addr thd hp tp s status w b' Hv Hget).
  cbn [fst snd mem]. split; [reflexivity |].
  rewrite (to_uint16_small w) by (subst w; apply alert_thd_limit_val_uint16).
  subst w. rewrite alert_thd_humidity_limit_val, alert_thd_temperature_limit_val.
  exists (humidity_roundtrip h), (temperature_roundtrip t).
  split; [rewrite lookup_insert_ne by congruence; apply lookup_insert_eq |].
  split; [apply lookup_insert_eq |].
  split.
  - apply within_below_spec.
    apply (forallb_Z_range _ _ _ humidity_roundtrip_grid h). lia.
  - apply within_below_spec.
    apply (forallb_Z_range _ _ _ temperature_roundtrip_grid t). lia.
Qed.

Lemma set_then_get_alert_thd_witness :
  (valid_slot SHT3X_HIALRT_SET /\ 0 <= 1000 <= 1000 /\ -450 <= 250 <= 1300 /\
   100 <> 104 /\
   trace (snd (sht3x_set_alert_thd Scripted.scripted 0x44 SHT3X_HIALRT_SET 1000 250
                 (Scripted.start [])))
   = [EvWriteCmdWithArgs 0x44 0x611D [0xFECC]] /\
   bus_read_cmd Scripted.scripted 0x44 0xE11F 1
     (bus (Scripted.start [(STATUS_OK, [0xFECC])]))
   = ((STATUS_OK, [0xFECC]), [])) /\
  fst (sht3x_get_alert_thd Scripted.scripted 0x44 SHT3X_HIALRT_SET 100 104
         (Scripted.start [(STATUS_OK, [0xFECC])])) = STATUS_OK /\
  exists h' t',
    mem (snd (sht3x_get_alert_thd Scripted.scripted 0x44 SHT3X_HIALRT_SET 100 104
                (Scripted.start [(STATUS_OK, [0xFECC])]))) !! 100 = Some h' /\
    mem (snd (sht3x_get_alert_thd Scripted.scripted 0x44 SHT3X_HIALRT_SET 100 104
                (Scripted.start [(STATUS_OK, [0xFECC])]))) !! 104 = Some t' /\
    0 <= 1000 - h' <= 8 /\ 0 <= 250 - t' <= 4.
Proof.
  assert (Hv : valid_slot SHT3X_HIALRT_SET) by (left; reflexivity).
  assert (Hne : (100 : Z) <> 104) by discriminate.
  split.
  - split; [exact Hv |]. split; [lia |]. split; [lia |]. split; [exact Hne |].
    split; reflexivity.
  - exact (set_then_get_alert_thd Scripted.scripted 0x44 SHT3X_HIALRT_SET 1000 250
             100 104 (Scripted.start []) (Scripted.start [(STATUS_OK, [0xFECC])])
             0xFECC STATUS_OK [] Hv ltac:(lia) ltac:(lia) Hne eq_refl eq_refl).
Defined.

(** ** Further properties of [sht3x_read_serial] *)

(** When the command write succeeds, [sht3x_read_serial] sleeps 1000
    microseconds, reads two words as four bytes, assigns [*serial] from the
    four bytes of its buffer whatever the status of that read (after a failed
    read the bytes the platform did not store are indeterminate), and
    returns the status of the read.  The value assigned fits 32 bits. *)
Theorem read_serial_stores_on_any_read_status {B : Type} (P : platform B) addr sp
    (s : state B) b1 status data b2 :
  bus_write_cmd P addr SHT3X_CMD_READ_SERIAL_ID (bus s) = (STATUS_OK, b1) ->
  bus_read_words_as_bytes P addr 2 (bus_sleep_usec P 1000 b1)
  = ((status, data), b2) ->
  let serial_bytes :=
    map to_uint8 (fill data (map (fun i => indeterminate P i (bus s)) (seq 0 4))) in
  let v := to_uint32 (bytes_to_uint32_t P serial_bytes) in
  sht3x_read_serial P addr sp s
  = (status,
     mkState (sht3x_cmd_measure s) b2 (<[sp := v]> (mem s))
       (trace s ++ [EvWriteCmd addr 0x3780; EvSleepUsec 1000;
                    EvReadWordsAsBytes addr 2])) /\
  0 <= v < 2 ^ 32 /\ length serial_bytes = 4%nat.
Proof.
  intros Hw Hr serial_bytes v. subst v serial_bytes.
  split; [| split].
  - rewrite (read_serial_write_ok P addr sp s b1 Hw). cbv zeta.
    change SHT3X_CMD_DURATION_USEC with 1000. rewrite Hr. reflexivity.
  - apply Z.mod_pos_bound. reflexivity.
  - rewrite length_map. unfold fill.
    rewrite length_app, length_firstn, length_skipn, length_map, length_seq. lia.
Qed.

Lemma read_serial_stores_on_any_read_status_witness :
  (bus_write_cmd Scripted.scripted 0x44 SHT3X_CMD_READ_SERIAL_ID
     (bus (Scripted.start [(STATUS_OK, []); (STATUS_CRC_FAIL, [0x12; 0x34])]))
   = (STATUS_OK, [(STATUS_CRC_FAIL, [0x12; 0x34])]) /\
   bus_read_words_as_bytes Scripted.scripted 0x44 2
     (bus_sleep_usec Scripted.scripted 1000 [(STATUS_CRC_FAIL, [0x12; 0x34])])
   = ((STATUS_CRC_FAIL, [0x12; 0x34]), [])) /\
  sht3x_read_serial Scripted.scripted 0x44 108
    (Scripted.start [(STATUS_OK, []); (STATUS_CRC_FAIL, [0x12; 0x34])])
  = (STATUS_CRC_FAIL,
     mkState 0x2400 [] (<[108 := 0x1234A7A8]> ∅)
       [EvWriteCmd 0x44 0x3780; EvSleepUsec 1000; EvReadWordsAsBytes 0x44 2]).
Proof.
  split; [split; reflexivity |].
  exact (proj1 (read_serial_stores_on_any_read_status Scripted.scripted 0x44 108
                  (Scripted.start [(STATUS_OK, []); (STATUS_CRC_FAIL, [0x12; 0x34])])
                  [(STATUS_CRC_FAIL, [0x12; 0x34])] STATUS_CRC_FAIL [0x12; 0x34] []
                  eq_refl eq_refl)).
Defined.

(** ** The requests the driver can make *)

Lemma exec_keeps_measure_cmd {B : Type} (P : platform B) (cs : bool) (c : call)
    (s : state B) :
  is_measure_cmd cs (sht3x_cmd_measure s) ->
  is_measure_cmd cs (sht3x_cmd_measure (exec P cs c s)).
Proof.
  intros Hs. destruct (sets_mode c) eqn:Hc.
  - unfold is_measure_cmd.
    destruct c; try discriminate Hc; cbn [exec].
    + rewrite enable_low_power_mode_cmd. destruct (to_uint8 _ =? 0); auto.
    + rewrite set_power_mode_cmd.
      destruct (mode =? SHT3X_MEAS_MODE_LPM); [| destruct (mode =? SHT3X_MEAS_MODE_MPM)];
        auto.
  - now rewrite exec_keeps_cmd.
Qed.

Lemma exec_requests_in_catalogue {B : Type} (P : platform B) (cs : bool) (c : call)
    (s : state B) :
  is_measure_cmd cs (sht3x_cmd_measure s) ->
  exists evs,
    trace (exec P cs c s) = trace s ++ evs /\ forallb (in_catalogue cs) evs = true.
Proof.
  intros Hs. unfold is_measure_cmd in Hs.
  destruct c; run_driver; rewrite <- ?app_assoc; cbn [app];
    first [ exists []; split; [now rewrite app_nil_r | reflexivity]
          | eexists; split; [reflexivity |];
            destruct Hs as [E | [E | E]]; rewrite ?E; try destruct cs; reflexivity ].
Qed.

(** From program start on, whatever driver functions are called with whatever
    arguments and whatever the platform answers, every request the driver
    makes is in the command catalogue of sht3x.c: no other command word, no
    other word count and no other delay is ever issued. *)
Theorem driver_requests_in_catalogue {B : Type} (P : platform B) (cs : bool)
    (calls : list call) (b : B) (m : gmap Z Z) :
  forallb (in_catalogue cs) (trace (run P cs calls (initial_state cs b m))) = true.
Proof.
  unfold run.
  assert (H0 : is_measure_cmd cs (sht3x_cmd_measure (initial_state cs b m)) /\
               forallb (in_catalogue cs) (trace (initial_state cs b m)) = true)
    by (split; [left |]; reflexivity).
  revert H0. generalize (initial_state cs b m).
  induction calls as [| c calls IH]; intros s [Hs Ht]; cbn [fold_left].
  - exact Ht.
  - apply IH. split; [apply exec_keeps_measure_cmd, Hs |].
    destruct (exec_requests_in_catalogue P cs c s Hs) as [evs [-> Hevs]].
    rewrite forallb_app, Ht, Hevs. reflexivity.
Qed.
